(** * easybuild.tools.docs: documentation-related functionality

    A shallow embedding of [easybuild/tools/docs.py] (Python 2) and the
    properties of its overview of easyconfig parameters.

    Python objects are modelled as follows.
    - [str] is [string]; [len] is [String.length] (a Python 2 [str] is a
      sequence of bytes).
    - A [dict] is an association list; item assignment replaces the binding
      of the key where it stands or adds one at the end, so a dict that is
      built by assignments has one binding per key.  The iteration order of
      a Python 2 [dict] is implementation-defined; the model iterates in
      list order.  The same representation serves for [OrderedDict], whose
      iteration order is the order of first insertion.
    - Exceptions are the [Err] results of type [result].
    - The module-level table [DEFAULT_CONFIG] is a shared mutable object: it
      lives in a [store], next to the objects allocated by a call. *)

From Stdlib Require Import String Ascii List ZArith Lia Bool Arith.
From Stdlib Require Import DecimalString Sorting.Sorted Sorting.Permutation.
Import ListNotations.
Open Scope string_scope.

(** Concatenation of lists, next to [++] on strings. *)
Infix "+++" := (@List.app _) (at level 60, right associativity).

(** ** Strings *)

Module Str.

Definition nl : string := String "010"%char EmptyString.

(** ['c' * n] *)
Fixpoint replicate (n : nat) (c : ascii) : string :=
  match n with
  | O => EmptyString
  | S n' => String c (replicate n' c)
  end.

(** [format(s, "{c}<{w}")]: left-aligned in a field of [w] characters,
    filled with [c]; a longer [s] is left as it is. *)
Definition ljust (c : ascii) (w : nat) (s : string) : string :=
  s ++ replicate (w - String.length s) c.

(** [sep.join(l)] *)
Definition join (sep : string) (l : list string) : string :=
  String.concat sep l.

Definition upper_char (c : ascii) : ascii :=
  let n := nat_of_ascii c in
  if ((97 <=? n) && (n <=? 122))%nat then ascii_of_nat (n - 32) else c.

(** [s.upper()] *)
Fixpoint upper (s : string) : string :=
  match s with
  | EmptyString => EmptyString
  | String c s' => String (upper_char c) (upper s')
  end.

(** The characters that [str.strip()] removes. *)
Definition is_space (c : ascii) : bool :=
  let n := nat_of_ascii c in
  ((n =? 32) || ((9 <=? n) && (n <=? 13)))%nat.

Fixpoint lstrip (s : string) : string :=
  match s with
  | EmptyString => EmptyString
  | String c s' => if is_space c then lstrip s' else s
  end.

Fixpoint rstrip (s : string) : string :=
  match s with
  | EmptyString => EmptyString
  | String c s' =>
      match rstrip s' with
      | EmptyString => if is_space c then EmptyString else String c EmptyString
      | r => String c r
      end
  end.

(** [s.strip()] *)
Definition strip (s : string) : string := rstrip (lstrip s).

(** [f.readlines()] on a file whose content is [s]: the lines, each with
    its newline character. *)
Fixpoint readlines_aux (cur : string) (s : string) : list string :=
  match s with
  | EmptyString =>
      match cur with EmptyString => [] | _ => [cur] end
  | String c s' =>
      if Ascii.eqb c "010"%char
      then (cur ++ String c EmptyString) :: readlines_aux EmptyString s'
      else readlines_aux (cur ++ String c EmptyString) s'
  end.

Definition readlines (s : string) : list string := readlines_aux EmptyString s.

End Str.

(** ** Python values and exceptions *)

(** A category is a pair of a sort key and a label, such as [(10, 'BUILD')]. *)
Definition category : Type := (Z * string)%type.

Definition category_eqb (a b : category) : bool :=
  Z.eqb (fst a) (fst b) && String.eqb (snd a) (snd b).

(** Default values of easyconfig parameters.  [PObj text] stands for any
    other object (a list, a dict, ...), known by the text that [str] returns
    for it. *)
Inductive pyval : Type :=
| PNone
| PBool (b : bool)
| PInt (z : Z)
| PStr (s : string)
| PObj (text : string).

(** [str(v)] *)
Definition py_str (v : pyval) : string :=
  match v with
  | PNone => "None"
  | PBool true => "True"
  | PBool false => "False"
  | PInt z => NilZero.string_of_int (Z.to_int z)
  | PStr s => s
  | PObj text => text
  end.

Inductive exn : Type :=
| KeyError (key : string)
| ValueError (msg : string)
| AttributeError (msg : string)
| OSError (msg : string)
| IOError (msg : string).

Inductive result (A : Type) : Type :=
| Ok (a : A)
| Err (e : exn).
Arguments Ok {A} a.
Arguments Err {A} e.

Definition rbind {A B : Type} (r : result A) (k : A -> result B) : result B :=
  match r with
  | Ok a => k a
  | Err e => Err e
  end.

Notation "x <- r ;; k" := (rbind r (fun x => k))
  (at level 61, r at next level, right associativity).

(** [max(l)]: a [ValueError] on an empty sequence. *)
Definition py_max (l : list nat) : result nat :=
  match l with
  | [] => Err (ValueError "max() arg is an empty sequence")
  | x :: l' => Ok (fold_left Nat.max l' x)
  end.

(** ** Dictionaries *)

Module Dict.
Section Ops.
Context {V : Type}.

Definition t : Type := list (string * V).

(** [k in d] *)
Definition mem (k : string) (d : t) : bool :=
  existsb (fun kv => String.eqb (fst kv) k) d.

(** [d[k]] *)
Fixpoint get (k : string) (d : t) : option V :=
  match d with
  | [] => None
  | (k', v) :: d' => if String.eqb k' k then Some v else get k d'
  end.

(** [d[k] = v] *)
Fixpoint set (k : string) (v : V) (d : t) : t :=
  match d with
  | [] => [(k, v)]
  | (k', v') :: d' =>
      if String.eqb k' k then (k, v) :: d' else (k', v') :: set k v d'
  end.

(** [del d[k]] (for a key that is present) *)
Definition del (k : string) (d : t) : t :=
  filter (fun kv => negb (String.eqb (fst kv) k)) d.

(** [d.update(e)] *)
Definition update (e : t) (d : t) : t :=
  fold_left (fun acc kv => set (fst kv) (snd kv) acc) e d.

Definition keys (d : t) : list string := map fst d.
Definition values (d : t) : list V := map snd d.

(** [bool(d)] *)
Definition nonempty (d : t) : bool :=
  match d with [] => false | _ => true end.

(** Insertion of one item into a list sorted by key. *)
Fixpoint insert_sorted (kv : string * V) (l : t) : t :=
  match l with
  | [] => [kv]
  | kv' :: l' =>
      if String.leb (fst kv) (fst kv') then kv :: l
      else kv' :: insert_sorted kv l'
  end.

(** [sorted(d.items())]: the keys of a dict differ, so the items are
    ordered by key. *)
Definition sorted_items (d : t) : t :=
  fold_right insert_sorted [] d.
End Ops.
Arguments t V : clear implicits.
End Dict.

(** ** det_col_width *)

(** [max(map(len, entries + [title]))] *)
Definition det_col_width (entries : list string) (title : string) : result nat :=
  py_max (map String.length (entries ++ [title])).

(** ** The names that docs.py imports *)

(** An easyconfig parameter as the tables hold it: [[dflt, descr, cat]]. *)
Definition param_spec : Type := (pyval * string * category)%type.

(** One group of [grouped_params]: name -> [(descr, dflt)]. *)
Definition group : Type := Dict.t (string * pyval).

(** An easyblock class, as far as this module looks at it: [__name__],
    the names of [__bases__], [__doc__] and the dict that [extra_options()]
    returns. *)
Record easyblock_class : Type := {
  class_name : string;
  class_bases : list string;
  class_doc : option string;
  extra_options : Dict.t param_spec
}.

(** [HIDDEN] is defined in [easybuild.framework.easyconfig.default], next to
    the categories that the parameter tables use.  docs.py compares it by
    [==] with an upper-cased label, which is a [str]; such a comparison can
    only hold if [HIDDEN] is a [str] too.  The framework binds the name to
    the hidden category itself, a pair like every other category; both
    shapes are kept. *)
Inductive hidden_marker : Type :=
| HiddenLabel (s : string)
| HiddenCategory (c : category).

(** Modelled from the spec: the collaborators of its section 6, which
    docs.py imports from other modules of the framework: the hidden-category
    marker, the canonical category order, the class-resolution function
    (name -> class or none) and the quoting function for default values.
    The last field is the state of the file system at
    [<module directory>/doc_examples]: [None] when [os.listdir] cannot list
    the directory, else its entries, each with the content that [open] and
    [readlines] give, or [None] for an entry that [open] fails on. *)
Record framework : Type := {
  HIDDEN : hidden_marker;
  sorted_categories : list category;
  get_easyblock_class : option string -> option easyblock_class;
  quote_str : pyval -> pyval;
  doc_examples : option (Dict.t (option string))
}.

(** [label == HIDDEN] for a [str] label *)
Definition str_eq_marker (label : string) (h : hidden_marker) : bool :=
  match h with
  | HiddenLabel s => String.eqb label s
  | HiddenCategory _ => false
  end.

(** The category that [HIDDEN] designates. *)
Definition is_hidden (h : hidden_marker) (cat : category) : bool :=
  match h with
  | HiddenLabel s => String.eqb (Str.upper (snd cat)) s
  | HiddenCategory c => category_eqb cat c
  end.

(** ** The shared table and the objects of a call *)

Record store : Type := {
  DEFAULT_CONFIG : Dict.t param_spec;
  heap : list (Dict.t param_spec)
}.

Inductive ref : Type :=
| Default
| Obj (n : nat).

Definition deref (s : store) (r : ref) : Dict.t param_spec :=
  match r with
  | Default => DEFAULT_CONFIG s
  | Obj n => nth n (heap s) []
  end.

Fixpoint replace_nth {A : Type} (n : nat) (x : A) (l : list A) : list A :=
  match l, n with
  | [], _ => []
  | _ :: l', O => x :: l'
  | y :: l', S n' => y :: replace_nth n' x l'
  end.

Definition assign (r : ref) (d : Dict.t param_spec) (s : store) : store :=
  match r with
  | Default => {| DEFAULT_CONFIG := d; heap := heap s |}
  | Obj n => {| DEFAULT_CONFIG := DEFAULT_CONFIG s; heap := replace_nth n d (heap s) |}
  end.

(** [copy.deepcopy(r)]: a new object with the same content. *)
Definition deepcopy (r : ref) (s : store) : ref * store :=
  (Obj (List.length (heap s)),
   {| DEFAULT_CONFIG := DEFAULT_CONFIG s; heap := heap s ++ [deref s r] |}).

(** [r.update(e)]: the object behind [r] is changed in place. *)
Definition dict_update (r : ref) (e : Dict.t param_spec) (s : store) : store :=
  assign r (Dict.update e (deref s r)) s.

(** ** The two renderers *)

(** A loop that appends lines for each element and stops at an exception. *)
Fixpoint for_lines {A : Type} (body : A -> list string -> result (list string))
    (l : list A) (lines : list string) : result (list string) :=
  match l with
  | [] => Ok lines
  | x :: l' => lines' <- body x lines ;; for_lines body l' lines'
  end.

(** ["{0:{c}<nw}   {1:{c}<dw}   {2:{c}<dfw}".format(a, b, d, c=c)] *)
Definition line_tmpl (nw dw dfw : nat) (c : ascii) (a b d : string) : string :=
  Str.ljust c nw a ++ "   " ++ Str.ljust c dw b ++ "   " ++ Str.ljust c dfw d.

Definition name_title : string := "**Parameter name**".
Definition descr_title : string := "**Description**".
Definition dflt_title : string := "**Default value**".

Definition rst_row (fw : framework) (nw dw dfw : nat) (item : string * (string * pyval)) : string :=
  let '(name, (descr, dflt)) := item in
  let rawname := "``" ++ name ++ "``" in
  line_tmpl nw dw dfw " " rawname descr (py_str (quote_str fw dflt)).

(** The column widths of one group of the rst overview. *)
Definition rst_widths (fw : framework) (grp : group) : result (nat * nat * nat) :=
  nw <- det_col_width (Dict.keys grp) name_title ;;
  dw <- det_col_width (map fst (Dict.values grp)) descr_title ;;
  dfw <- det_col_width (map (fun x => py_str (quote_str fw (snd x))) (Dict.values grp)) dflt_title ;;
  Ok (nw + 4, dw, dfw).

(** The body of the loop over the groups in [avail_easyconfig_params_rst]. *)
Definition rst_group (fw : framework) (item : string * group) (lines : list string)
  : result (list string) :=
  let '(grpname, grp) := item in
  let section := grpname ++ " parameters" in
  let lines := lines +++ [section] in
  let lines := lines +++ [Str.replicate (String.length section) "-"; ""] in
  w <- rst_widths fw grp ;;
  let '(nw, dw, dfw) := w in
  let table_line := line_tmpl nw dw dfw "=" "" "" "" in
  let lines := lines +++ [table_line] in
  let lines := lines +++ [line_tmpl nw dw dfw " " name_title descr_title dflt_title] in
  let lines := lines +++ [line_tmpl nw dw dfw "-" "" "" ""] in
  let lines := lines +++ map (rst_row fw nw dw dfw) (Dict.sorted_items grp) in
  Ok (lines +++ [table_line; ""]).

Definition avail_easyconfig_params_rst (fw : framework) (title : string)
    (grouped_params : Dict.t group) : result string :=
  lines <- for_lines (rst_group fw) grouped_params
             [title; Str.replicate (String.length title) "="; ""] ;;
  Ok (Str.join Str.nl lines).

(** ["{0:<{nw}}   {1:} [default: {2:}]".format(name, descr, str(quote_str(dflt)), nw=nw)] *)
Definition txt_row (fw : framework) (nw : nat) (item : string * (string * pyval)) : string :=
  let '(name, (descr, dflt)) := item in
  Str.ljust " " nw name ++ "   " ++ descr ++ " [default: " ++ py_str (quote_str fw dflt) ++ "]".

(** The body of the loop over the groups in [avail_easyconfig_params_txt]. *)
Definition txt_group (fw : framework) (item : string * group) (lines : list string)
  : result (list string) :=
  let '(grpname, grp) := item in
  let heading := Str.upper grpname in
  let lines := lines +++ [heading] in
  let lines := lines +++ [Str.replicate (String.length heading) "-"] in
  nw <- py_max (map String.length (Dict.keys grp)) ;;
  let lines := lines +++ map (txt_row fw nw) (Dict.sorted_items grp) in
  Ok (lines +++ [""]).

Definition avail_easyconfig_params_txt (fw : framework) (title : string)
    (grouped_params : Dict.t group) : result string :=
  lines <- for_lines (txt_group fw) grouped_params [title ++ ":"; ""] ;;
  Ok (Str.join Str.nl lines).

(** ** avail_easyconfig_params *)

(** The name under which a parameter is listed: easyblock-specific
    parameters are marked with ['%s*' % name]. *)
Definition display_name (extra_params : Dict.t param_spec) (name : string) : string :=
  if Dict.mem name extra_params then name ++ "*" else name.

(** [grouped_params[grpname].update({name: v})]; the group exists at every
    use, it is assigned just before the loop over the parameters. *)
Definition group_update (grpname name : string) (v : string * pyval)
    (grouped_params : Dict.t group) : Dict.t group :=
  map (fun kv => if String.eqb (fst kv) grpname
                 then (fst kv, Dict.set name v (snd kv)) else kv) grouped_params.

(** The body of the loop over [params.items()]. *)
Definition place_param (extra_params : Dict.t param_spec) (category : category)
    (grpname : string) (grouped_params : Dict.t group) (item : string * param_spec)
  : Dict.t group :=
  let '(name, (dflt, descr, cat)) := item in
  if category_eqb cat category
  then group_update grpname (display_name extra_params name) (descr, dflt) grouped_params
  else grouped_params.

(** The body of the loop over [sorted_categories()]. *)
Definition add_category (fw : framework) (extra_params params : Dict.t param_spec)
    (grouped_params : Dict.t group) (category : category) : Dict.t group :=
  if str_eq_marker (Str.upper (snd category)) (HIDDEN fw) then grouped_params
  else
    let grpname := snd category in
    let grouped_params := Dict.set grpname [] grouped_params in
    let grouped_params :=
      fold_left (place_param extra_params category grpname) params grouped_params in
    match Dict.get grpname grouped_params with
    | Some (_ :: _) => grouped_params
    | _ => Dict.del grpname grouped_params
    end.

(** "group parameters by category" *)
Definition group_params (fw : framework) (extra_params params : Dict.t param_spec)
  : Dict.t group :=
  fold_left (add_category fw extra_params params) (sorted_categories fw) [].

Definition FORMAT_RST : string := "rst".
Definition FORMAT_TXT : string := "txt".

Definition avail_easyconfig_params_functions (fw : framework)
  : Dict.t (string -> Dict.t group -> result string) :=
  [(FORMAT_RST, avail_easyconfig_params_rst fw);
   (FORMAT_TXT, avail_easyconfig_params_txt fw)].

(** [extra_params] of a call: the extra options of the class, if any. *)
Definition extra_params_of (app : option easyblock_class) : Dict.t param_spec :=
  match app with
  | Some cls => extra_options cls
  | None => []
  end.

Definition compose_title (app : option easyblock_class) (extra_params : Dict.t param_spec)
  : string :=
  let title := "Available easyconfig parameters" in
  match app, Dict.nonempty extra_params with
  | Some cls, true => title ++ " (* indicates specific to the " ++ class_name cls ++ " easyblock)"
  | _, _ => title
  end.

(** [avail_easyconfig_params_functions[output_format](title, grouped_params)] *)
Definition compose_output (fw : framework) (output_format title : string)
    (grouped_params : Dict.t group) : result string :=
  match Dict.get output_format (avail_easyconfig_params_functions fw) with
  | Some f => f title grouped_params
  | None => Err (KeyError output_format)
  end.

Definition avail_easyconfig_params (fw : framework) (easyblock : option string)
    (output_format : string) (s : store) : result string * store :=
  let (params, s) := deepcopy Default s in
  let app := get_easyblock_class fw easyblock in
  let extra_params := extra_params_of app in
  let s := dict_update params extra_params s in
  let title := compose_title app extra_params in
  let grouped_params := group_params fw extra_params (deref s params) in
  (compose_output fw output_format title grouped_params, s).

(** ** doc_easyblock *)

Definition common_params : Dict.t (list string) :=
  [("ConfigureMake", ["configopts"; "buildopts"; "installopts"])].

Definition ectitle : string := "easyconfig parameter".
Definition desctitle : string := "description".
Definition dftitle : string := "default value".

(** The column widths of the table of extra options. *)
Definition ex_opt_widths (ex_opt : Dict.t param_spec) : result (nat * nat * nat) :=
  nw <- det_col_width (Dict.keys ex_opt) ectitle ;;
  dw <- det_col_width (map (fun val => snd (fst val)) (Dict.values ex_opt)) desctitle ;;
  dfw <- det_col_width (map (fun val => py_str (fst (fst val))) (Dict.values ex_opt)) dftitle ;;
  Ok (nw + 4, dw, dfw + 4).

Definition ex_opt_row (fw : framework) (nw dw dfw : nat) (item : string * param_spec) : string :=
  let '(key, (dflt, descr, _)) := item in
  line_tmpl nw dw dfw " " ("``" ++ key ++ "``") descr
    ("``" ++ py_str (quote_str fw dflt) ++ "``").

(** "Add extra options, if any" *)
Definition ex_opt_table (fw : framework) (classname : string) (ex_opt : Dict.t param_spec)
    (lines : list string) : result (list string) :=
  if Dict.nonempty ex_opt then
    let extra_parameters :=
      "Extra easyconfig parameters specific to ``" ++ classname ++ "`` easyblock" in
    let lines :=
      lines +++ [extra_parameters; Str.replicate (String.length extra_parameters) "-"; ""] in
    w <- ex_opt_widths ex_opt ;;
    let '(nw, dw, dfw) := w in
    let table_line := line_tmpl nw dw dfw "=" "" "" "" in
    let lines := lines +++ [table_line] in
    let lines := lines +++ [line_tmpl nw dw dfw " " ectitle desctitle dftitle] in
    let lines := lines +++ [table_line] in
    let lines := lines +++ map (ex_opt_row fw nw dw dfw) ex_opt in
    Ok (lines +++ [table_line; ""])
  else Ok lines.

(** The bullet list of commonly used parameters; [DEFAULT_CONFIG[opt]] is a
    [KeyError] for an unknown parameter. *)
Definition common_param_line (s : store) (opt : string) (lines : list string)
  : result (list string) :=
  match Dict.get opt (DEFAULT_CONFIG s) with
  | Some (_, descr, _) => Ok (lines +++ ["* ``" ++ opt ++ "`` - " ++ descr])
  | None => Err (KeyError opt)
  end.

Definition commonly_used_params (s : store) (classname : string) (lines : list string)
  : result (list string) :=
  match Dict.get classname common_params with
  | Some opts =>
      let commonly_used :=
        "Commonly used easyconfig parameters with ``" ++ classname ++ "`` easyblock" in
      let lines :=
        lines +++ [commonly_used; Str.replicate (String.length commonly_used) "-"] in
      for_lines (common_param_line s) opts lines
  | None => Ok lines
  end.

(** The example of the class, if its file is listed.  [os.listdir] raises
    [OSError] for a directory that cannot be listed, [open] raises [IOError]
    for an entry that cannot be opened. *)
Definition example_block (fw : framework) (classname : string) (lines : list string)
  : result (list string) :=
  match doc_examples fw with
  | None => Err (OSError "doc_examples")
  | Some listing =>
      match Dict.get (classname ++ ".eb") listing with
      | Some file =>
          let lines := lines +++ [""; "Example"; Str.replicate 8 "-"; ""; "::"; ""] in
          match file with
          | Some content =>
              let lines :=
                lines +++ map (fun line => "    " ++ Str.strip line) (Str.readlines content) in
              Ok (lines +++ [""])
          | None => Err (IOError (classname ++ ".eb"))
          end
      | None => Ok lines
      end
  end.

Definition doc_easyblock (fw : framework) (eb_class : easyblock_class) (s : store)
  : result string :=
  let classname := class_name eb_class in
  let lines :=
    ["``" ++ classname ++ "``"; Str.replicate (String.length classname + 4) "="; ""] in
  let bases := map (fun base => "``" ++ base ++ "``") (class_bases eb_class) in
  let derived := "(derives from " ++ Str.join ", " bases ++ ")" in
  let lines := lines +++ [derived; ""] in
  match class_doc eb_class with
  | None => Err (AttributeError "'NoneType' object has no attribute 'strip'")
  | Some doc =>
      let lines := lines +++ [Str.strip doc; ""] in
      lines <- ex_opt_table fw classname (extra_options eb_class) lines ;;
      lines <- commonly_used_params s classname lines ;;
      lines <- example_block fw classname lines ;;
      Ok (Str.join Str.nl lines)
  end.

(** ** A framework to run the examples with *)

(** Modelled from the spec: the quoting function "adds literal quote
    characters around string-typed defaults and leaves other types as their
    plain textual form"; the example of the spec shows single quotes. *)
Definition spec_quote_str (v : pyval) : pyval :=
  match v with
  | PStr s => PStr ("'" ++ s ++ "'")
  | _ => v
  end.

Definition CUSTOM : category := (1%Z, "easyblock-specific").
Definition MANDATORY : category := (0%Z, "mandatory").
Definition HIDDEN_CATEGORY : category := ((-1)%Z, "hidden").
Definition BUILD10 : category := (10%Z, "BUILD").

Definition example_class : easyblock_class :=
  {| class_name := "Toy";
     class_bases := ["EasyBlock"];
     class_doc := Some "Builds toys.";
     extra_options := [("toy_flavour", (PStr "ConfigureMake", "Flavour of the toy", CUSTOM))] |}.

Definition resolve_example (easyblock : option string) : option easyblock_class :=
  match easyblock with
  | Some "Toy" => Some example_class
  | _ => None
  end.

Definition example_framework (h : hidden_marker) (cats : list category) : framework :=
  {| HIDDEN := h;
     sorted_categories := cats;
     get_easyblock_class := resolve_example;
     quote_str := spec_quote_str;
     doc_examples := Some [] |}.

Definition store_of (d : Dict.t param_spec) : store :=
  {| DEFAULT_CONFIG := d; heap := [] |}.

(** ** Notions used in the statements *)

(** The extra parameters, the working table ([params] after the update) and
    the grouping that a call computes. *)
Definition extra_params_for (fw : framework) (easyblock : option string) : Dict.t param_spec :=
  extra_params_of (get_easyblock_class fw easyblock).

Definition working_table (fw : framework) (easyblock : option string) (s : store)
  : Dict.t param_spec :=
  Dict.update (extra_params_for fw easyblock) (DEFAULT_CONFIG s).

Definition grouped_params_of (fw : framework) (easyblock : option string) (s : store)
  : Dict.t group :=
  group_params fw (extra_params_for fw easyblock) (working_table fw easyblock s).

Definition title_of (fw : framework) (easyblock : option string) : string :=
  compose_title (get_easyblock_class fw easyblock) (extra_params_for fw easyblock).

(** The category of a parameter is one of [sorted_categories()]. *)
Definition listed (fw : framework) (item : string * param_spec) : bool :=
  existsb (category_eqb (snd (snd item))) (sorted_categories fw).

(** The category of a parameter is not the one that [HIDDEN] designates. *)
Definition visible (fw : framework) (item : string * param_spec) : bool :=
  negb (is_hidden (HIDDEN fw) (snd (snd item))).

(** Every group has a parameter. *)
Definition all_nonempty (grouped_params : Dict.t group) : Prop :=
  forall g grp, In (g, grp) grouped_params -> grp <> [].

(** Tables for the examples. *)
Definition name_only : Dict.t param_spec :=
  [("name", (PStr "ConfigureMake", "Name of the software", BUILD10))].

(** The grouping of [name_only]. *)
Definition name_only_grouped : Dict.t group :=
  [("BUILD", [("name", ("Name of the software", PStr "ConfigureMake"))])].

Definition with_secret : Dict.t param_spec :=
  [("secret", (PBool true, "Internal switch", HIDDEN_CATEGORY));
   ("name", (PNone, "Name of software", MANDATORY))].

Definition with_unlisted : Dict.t param_spec :=
  [("stray", (PInt 3, "Not in any listed category", (42%Z, "stray")));
   ("name", (PNone, "Name of software", MANDATORY))].

Definition framework_categories : list category :=
  [HIDDEN_CATEGORY; MANDATORY; CUSTOM; BUILD10].

(** The framework as it binds [HIDDEN]: to the hidden category. *)
Definition fw_tuple : framework :=
  example_framework (HiddenCategory HIDDEN_CATEGORY) framework_categories.

(** A framework in which [HIDDEN] is the upper-cased label. *)
Definition fw_label : framework :=
  example_framework (HiddenLabel "HIDDEN") framework_categories.

(** One step of filling the group of [category], seen on the group alone. *)
Definition fill_step (extra_params : Dict.t param_spec) (category : category)
    (grp : group) (item : string * param_spec) : group :=
  let '(name, (dflt, descr, cat)) := item in
  if category_eqb cat category
  then Dict.set (display_name extra_params name) (descr, dflt) grp
  else grp.

(** The parameters of [category], under the names they are listed with. *)
Definition fill_group (extra_params : Dict.t param_spec) (category : category)
    (params : Dict.t param_spec) : group :=
  fold_left (fill_step extra_params category) params [].

(** The item [k: v] of group [g] stands for a parameter of [params] whose
    category is listed, is not skipped and has label [g]; [k] is the name
    under which that parameter is listed. *)
Definition from_listed_category (fw : framework) (extra_params params : Dict.t param_spec)
    (g k : string) (v : string * pyval) : Prop :=
  exists name cat,
    In (name, (snd v, fst v, cat)) params
    /\ In cat (sorted_categories fw) /\ snd cat = g
    /\ str_eq_marker (Str.upper (snd cat)) (HIDDEN fw) = false
    /\ k = display_name extra_params name.

(** ** generic_easyblocks *)

(** A loop over [l] that threads a state and stops at an exception. *)
Fixpoint for_each {A S : Type} (body : A -> S -> result S) (l : list A) (st : S)
  : result S :=
  match l with
  | [] => Ok st
  | x :: l' => st' <- body x st ;; for_each body l' st'
  end.

(** A class object found in a module: the class and its [__module__]. *)
Record class_object : Type := {
  class_of : easyblock_class;
  class_module : string
}.

(** A module of the namespace, as [inspect.getmembers(m, inspect.isclass)]
    lists it: the pairs of an attribute name and the class bound to it. *)
Definition py_module : Type := list (string * class_object).

Definition GENERIC_NAMESPACE : string := "easybuild.easyblocks.generic".

(** The body of the loop over the members of a module; the state is
    [(docs, seen)]. *)
Definition document_member (fw : framework) (s : store) (member : string * class_object)
    (state : list string * list string) : result (list string * list string) :=
  let '(name, eb_class) := member in
  let '(docs, seen) := state in
  if String.prefix GENERIC_NAMESPACE (class_module eb_class)
     && negb (existsb (String.eqb name) seen)
  then
    doc <- doc_easyblock fw (class_of eb_class) s ;;
    Ok (docs +++ [doc], seen +++ [name])
  else Ok state.

(** [modules] is what [import_available_modules('easybuild.easyblocks.generic')]
    returns. *)
Definition generic_easyblocks (fw : framework) (modules : list py_module) (s : store)
  : result (list string) :=
  state <- for_each (fun m state => for_each (document_member fw s) m state) modules ([], []) ;;
  Ok (fst state).

(** ** Notions used in the statements on the remaining code *)

(** A class that is defined in the generic namespace, not imported into it. *)
Definition defined_in_generic (member : string * class_object) : bool :=
  String.prefix GENERIC_NAMESPACE (class_module (snd member)).

(** The members defined in the generic namespace, each name at its first
    occurrence, apart from the names in [seen]. *)
Fixpoint first_occurrences (seen : list string) (members : list (string * class_object))
  : list (string * class_object) :=
  match members with
  | [] => []
  | member :: members' =>
      if defined_in_generic member && negb (existsb (String.eqb (fst member)) seen)
      then member :: first_occurrences (seen +++ [fst member]) members'
      else first_occurrences seen members'
  end.

(** The results of [f] on the elements of [l], up to the first exception. *)
Fixpoint map_result {A B : Type} (f : A -> result B) (l : list A) : result (list B) :=
  match l with
  | [] => Ok []
  | x :: l' => y <- f x ;; ys <- map_result f l' ;; Ok (y :: ys)
  end.

(** The test of the aggregator on a category: it is not skipped as hidden. *)
Definition shown (fw : framework) (c : category) : bool :=
  negb (str_eq_marker (Str.upper (snd c)) (HIDDEN fw)).

(** The group that a category contributes, if any. *)
Definition group_of_category (fw : framework) (extra_params params : Dict.t param_spec)
    (c : category) : option group :=
  if shown fw c then
    match fill_group extra_params c params with
    | [] => None
    | grp => Some grp
    end
  else None.

(** The groups of the categories, in the canonical order. *)
Definition groups_in_order (fw : framework) (extra_params params : Dict.t param_spec)
    (cats : list category) : Dict.t group :=
  flat_map (fun c => match group_of_category fw extra_params params c with
                     | Some grp => [(snd c, grp)]
                     | None => []
                     end) cats.

(** Rows in ascending order of the name. *)
Definition name_le {V : Type} (a b : string * V) : Prop :=
  String.leb (fst a) (fst b) = true.

(** The lines of a table that all have the width [w]. *)
Definition all_of_length (w : nat) (lines : list string) : Prop :=
  forall line, In line lines -> String.length line = w.

(** The common parameters that [doc_easyblock] looks up for a class name. *)
Definition common_params_of (classname : string) : list string :=
  match Dict.get classname common_params with
  | Some opts => opts
  | None => []
  end.

(** Classes and modules for the examples. *)
Definition plain_class : easyblock_class :=
  {| class_name := "Foo";
     class_bases := ["EasyBlock"];
     class_doc := Some "Builds Foo.";
     extra_options := [] |}.

Definition undocumented_class : easyblock_class :=
  {| class_name := "Bare";
     class_bases := ["EasyBlock"];
     class_doc := None;
     extra_options := [] |}.

Definition int_option_class : easyblock_class :=
  {| class_name := "Par";
     class_bases := ["Foo"];
     class_doc := Some "Builds in parallel.";
     extra_options := [("maxparallel", (PInt 16, "Upper bound on parallelism", CUSTOM))] |}.

Definition generic_foo : class_object :=
  {| class_of := plain_class; class_module := "easybuild.easyblocks.generic.foo" |}.

Definition generic_toy : class_object :=
  {| class_of := example_class; class_module := "easybuild.easyblocks.generic.toy" |}.

Definition framework_easyblock : class_object :=
  {| class_of := undocumented_class; class_module := "easybuild.framework.easyblock" |}.

Definition example_modules : list py_module :=
  [[("EasyBlock", framework_easyblock); ("Foo", generic_foo)];
   [("EasyBlock", framework_easyblock); ("Foo", generic_foo); ("Toy", generic_toy)]].

(** Two categories with one label, and a table with a parameter in each. *)
Definition shared_label_categories : list category :=
  [(3%Z, "build"); (4%Z, "build")].

Definition shared_label_table : Dict.t param_spec :=
  [("configopts", (PStr "", "Extra options for configure", (3%Z, "build")));
   ("buildopts", (PStr "", "Extra options for make", (4%Z, "build")))].

Definition fw_shared_label : framework :=
  example_framework (HiddenCategory HIDDEN_CATEGORY) shared_label_categories.

(** A framework in which every name resolves to a class without extra
    options. *)
Definition fw_plain : framework :=
  {| HIDDEN := HiddenCategory HIDDEN_CATEGORY;
     sorted_categories := framework_categories;
     get_easyblock_class := fun _ => Some plain_class;
     quote_str := spec_quote_str;
     doc_examples := Some [] |}.

(** The class that [common_params] knows, and a default table that lacks
    one of its commonly used parameters. *)
Definition configure_make_class : easyblock_class :=
  {| class_name := "ConfigureMake";
     class_bases := ["EasyBlock"];
     class_doc := Some "Support for building and installing with configure, make, make install.";
     extra_options := [] |}.

Definition without_buildopts : Dict.t param_spec :=
  [("configopts", (PStr "", "Extra options passed to configure", BUILD10));
   ("installopts", (PStr "", "Extra options for installation", BUILD10))].

(** The lines that [doc_easyblock] starts with, for a class with a docstring. *)
Definition doc_head (cls : easyblock_class) (doc : string) : list string :=
  ["``" ++ class_name cls ++ "``";
   Str.replicate (String.length (class_name cls) + 4) "=";
   "";
   "(derives from "
     ++ Str.join ", " (map (fun base => "``" ++ base ++ "``") (class_bases cls)) ++ ")";
   "";
   Str.strip doc;
   ""].

(** The greatest length of the strings of [l], 0 for no string. *)
Definition max_length (l : list string) : nat :=
  fold_right Nat.max 0 (map String.length l).

(** The lines that [avail_easyconfig_params_txt] adds for a group. *)
Definition txt_block (fw : framework) (item : string * group) : list string :=
  let '(g, grp) := item in
  [Str.upper g; Str.replicate (String.length (Str.upper g)) "-"]
  +++ map (txt_row fw (max_length (Dict.keys grp))) (Dict.sorted_items grp)
  +++ [""].

(** The lines that [avail_easyconfig_params_rst] adds for a group. *)
Definition rst_block (fw : framework) (item : string * group) : list string :=
  let '(g, grp) := item in
  let nw := max_length (Dict.keys grp +++ [name_title]) + 4 in
  let dw := max_length (map fst (Dict.values grp) +++ [descr_title]) in
  let dfw :=
    max_length (map (fun x => py_str (quote_str fw (snd x))) (Dict.values grp)
                +++ [dflt_title]) in
  [g ++ " parameters";
   Str.replicate (String.length (g ++ " parameters")) "-";
   "";
   line_tmpl nw dw dfw "=" "" "" "";
   line_tmpl nw dw dfw " " name_title descr_title dflt_title;
   line_tmpl nw dw dfw "-" "" "" ""]
  +++ map (rst_row fw nw dw dfw) (Dict.sorted_items grp)
  +++ [line_tmpl nw dw dfw "=" "" "" ""; ""].

(** A default table whose only parameter is of the hidden category. *)
Definition secret_only : Dict.t param_spec :=
  [("secret", (PBool true, "Internal switch", HIDDEN_CATEGORY))].

(** File systems for the examples: no [doc_examples] directory, and a
    directory with the example of [Foo] and an entry for [Toy] that cannot
    be opened. *)
Definition fw_without_directory : framework :=
  {| HIDDEN := HiddenCategory HIDDEN_CATEGORY;
     sorted_categories := framework_categories;
     get_easyblock_class := resolve_example;
     quote_str := spec_quote_str;
     doc_examples := None |}.

Definition fw_with_examples : framework :=
  {| HIDDEN := HiddenCategory HIDDEN_CATEGORY;
     sorted_categories := framework_categories;
     get_easyblock_class := resolve_example;
     quote_str := spec_quote_str;
     doc_examples :=
       Some [("Foo.eb", Some ("name = 'foo'  " ++ Str.nl ++ "version = '1.0'" ++ Str.nl));
             ("Toy.eb", None)] |}.

(** ** Column widths *)

Lemma fold_left_max_ge (l : list nat) (a : nat) : a <= fold_left Nat.max l a.
Proof.
  revert a; induction l as [|x l IH]; intros a; simpl; [lia|].
  specialize (IH (Nat.max a x)); lia.
Qed.

Lemma fold_left_max_bound (l : list nat) (a x : nat) :
  In x l -> x <= fold_left Nat.max l a.
Proof.
  revert a; induction l as [|y l IH]; intros a H; simpl in *; [contradiction|].
  destruct H as [E|H].
  - subst y. pose proof (fold_left_max_ge l (Nat.max a x)); lia.
  - now apply IH.
Qed.

Lemma fold_left_max_attained (l : list nat) (a : nat) :
  fold_left Nat.max l a = a \/ In (fold_left Nat.max l a) l.
Proof.
  revert a; induction l as [|y l IH]; intros a; simpl; [now left|].
  destruct (IH (Nat.max a y)) as [E|H].
  - rewrite E. destruct (Nat.max_spec a y) as [[_ M]|[_ M]]; rewrite M; auto.
  - auto.
Qed.

Lemma py_max_spec (l : list nat) :
  l <> [] ->
  exists m, py_max l = Ok m /\ In m l /\ forall x, In x l -> x <= m.
Proof.
  destruct l as [|a l]; [congruence|intros _].
  exists (fold_left Nat.max l a); split; [reflexivity|split].
  - destruct (fold_left_max_attained l a) as [E|H]; [rewrite E; now left|now right].
  - intros x [E|H]; [subst; apply fold_left_max_ge|now apply fold_left_max_bound].
Qed.

Lemma det_col_width_spec (entries : list string) (title : string) :
  exists w, det_col_width entries title = Ok w
    /\ (exists e, In e (entries ++ [title])%list /\ String.length e = w)
    /\ (forall e, In e (entries ++ [title])%list -> String.length e <= w).
Proof.
  unfold det_col_width.
  destruct (py_max_spec (map String.length (entries ++ [title])%list)) as (m & E & I & B).
  - destruct entries; discriminate.
  - exists m; split; [exact E|split].
    + apply in_map_iff in I. destruct I as (e & L & I). now exists e.
    + intros e I'. apply B. now apply in_map.
Qed.

Lemma det_col_width_bounds (entries : list string) (title : string) (w : nat) :
  det_col_width entries title = Ok w ->
  String.length title <= w /\ forall e, In e entries -> String.length e <= w.
Proof.
  intros E. destruct (det_col_width_spec entries title) as (w' & E' & _ & B).
  rewrite E in E'. injection E' as <-. split.
  - apply B, in_or_app; right; now left.
  - intros e I. apply B, in_or_app; now left.
Qed.

(** ** The store *)

Lemma nth_replace_nth_end {A : Type} (l : list A) (x y d : A) :
  nth (List.length l) (replace_nth (List.length l) y (l ++ [x])%list) d = y.
Proof. induction l as [|a l IH]; simpl; [reflexivity|exact IH]. Qed.

Lemma replace_nth_end {A : Type} (l : list A) (x y : A) :
  replace_nth (List.length l) y (l ++ [x])%list = (l ++ [y])%list.
Proof. induction l as [|a l IH]; simpl; [reflexivity|now rewrite IH]. Qed.

(** What a call computes and what it leaves in the store. *)
Lemma avail_easyconfig_params_eq (fw : framework) (easyblock : option string)
    (output_format : string) (s : store) :
  avail_easyconfig_params fw easyblock output_format s =
  (compose_output fw output_format (title_of fw easyblock) (grouped_params_of fw easyblock s),
   {| DEFAULT_CONFIG := DEFAULT_CONFIG s;
      heap := (heap s ++ [working_table fw easyblock s])%list |}).
Proof.
  unfold avail_easyconfig_params, grouped_params_of, title_of, working_table,
    extra_params_for, deepcopy, dict_update, assign, deref; simpl.
  rewrite nth_replace_nth_end, nth_middle, replace_nth_end. reflexivity.
Qed.

(** ** Dictionaries: membership, keys and lookup *)

Lemma category_eqb_eq (a b : category) : category_eqb a b = true <-> a = b.
Proof.
  destruct a as [ka la], b as [kb lb]; unfold category_eqb; simpl.
  rewrite andb_true_iff, Z.eqb_eq, String.eqb_eq. split.
  - intros [-> ->]; reflexivity.
  - intros E; injection E; auto.
Qed.

Lemma category_eqb_refl (a : category) : category_eqb a a = true.
Proof. now apply category_eqb_eq. Qed.

Section DictFacts.
Context {V : Type}.
Implicit Types (d : Dict.t V) (k : string) (v : V).

Lemma in_set d k v x : In x (Dict.set k v d) -> x = (k, v) \/ In x d.
Proof.
  induction d as [|[k' v'] d IH]; simpl.
  - intros [E|[]]; auto.
  - destruct (String.eqb k' k); simpl; intros [E|H]; auto.
    destruct (IH H); auto.
Qed.

Lemma in_del d k x : In x (Dict.del k d) -> In x d.
Proof. unfold Dict.del. intros H. now apply filter_In in H. Qed.

Lemma in_del_neq d k x : In x (Dict.del k d) -> In x d /\ fst x <> k.
Proof.
  unfold Dict.del. intros H. apply filter_In in H. destruct H as [I E].
  split; [exact I|]. apply negb_true_iff in E. now apply String.eqb_neq.
Qed.

Lemma keys_set d k v x : In x (Dict.keys (Dict.set k v d)) -> x = k \/ In x (Dict.keys d).
Proof.
  unfold Dict.keys. intros H. apply in_map_iff in H. destruct H as ([k' v'] & E & H).
  simpl in E; subst k'. destruct (in_set _ _ _ _ H) as [E|I].
  - injection E; auto.
  - right. apply in_map_iff. now exists (x, v').
Qed.

Lemma nodup_set d k v : NoDup (Dict.keys d) -> NoDup (Dict.keys (Dict.set k v d)).
Proof.
  induction d as [|[k' v'] d IH]; simpl; intros N.
  - constructor; [intros []|constructor].
  - inversion N as [|? ? NI N']; subst.
    destruct (String.eqb_spec k' k) as [->|NE]; simpl.
    + now constructor.
    + constructor; [|now apply IH].
      intros I. destruct (keys_set _ _ _ _ I); [congruence|contradiction].
Qed.

Lemma nodup_del d k : NoDup (Dict.keys d) -> NoDup (Dict.keys (Dict.del k d)).
Proof.
  induction d as [|[k' v'] d IH]; simpl; intros N; [constructor|].
  inversion N as [|? ? NI N']; subst.
  destruct (String.eqb k' k); simpl; [now apply IH|].
  constructor; [|now apply IH].
  intros I. apply NI. unfold Dict.keys in *. apply in_map_iff in I.
  destruct I as (y & E & I). apply in_del in I. apply in_map_iff. now exists y.
Qed.

Lemma get_set_same d k v : Dict.get k (Dict.set k v d) = Some v.
Proof.
  induction d as [|[k' v'] d IH]; simpl.
  - now rewrite String.eqb_refl.
  - destruct (String.eqb k' k) eqn:E; simpl; [now rewrite String.eqb_refl|now rewrite E].
Qed.

Lemma del_absent d k : ~ In k (Dict.keys d) -> Dict.del k d = d.
Proof.
  induction d as [|[k' v'] d IH]; simpl; intros N; [reflexivity|].
  destruct (String.eqb_spec k' k) as [->|NE]; simpl.
  - exfalso; auto.
  - f_equal. apply IH. auto.
Qed.

Lemma del_set_absent d k v : ~ In k (Dict.keys d) -> Dict.del k (Dict.set k v d) = d.
Proof.
  induction d as [|[k' v'] d IH]; simpl; intros N.
  - now rewrite String.eqb_refl.
  - destruct (String.eqb_spec k' k) as [->|NE]; simpl.
    + exfalso; auto.
    + destruct (String.eqb_spec k' k); [contradiction|]. simpl. f_equal. apply IH. auto.
Qed.

Lemma mem_true_iff d k : Dict.mem k d = true <-> In k (Dict.keys d).
Proof.
  unfold Dict.mem, Dict.keys. rewrite existsb_exists, in_map_iff. split.
  - intros (x & I & E). apply String.eqb_eq in E. now exists x.
  - intros (x & E & I). exists x. split; [exact I|now apply String.eqb_eq].
Qed.
End DictFacts.

(** ** Grouping by category *)

Section Grouping.
Variable fw : framework.
Variable extra_params : Dict.t param_spec.

Lemma group_update_absent (g name : string) (v : string * pyval) (d : Dict.t group) :
  ~ In g (Dict.keys d) -> group_update g name v d = d.
Proof.
  unfold group_update. induction d as [|[k grp] d IH]; simpl; intros N; [reflexivity|].
  destruct (String.eqb_spec k g) as [->|NE]; [exfalso; auto|].
  f_equal. apply IH. auto.
Qed.

(** Updating the group that was just assigned is assigning the updated
    group. *)
Lemma group_update_set (g name : string) (v : string * pyval) (grp : group)
    (d : Dict.t group) :
  NoDup (Dict.keys d) ->
  group_update g name v (Dict.set g grp d) = Dict.set g (Dict.set name v grp) d.
Proof.
  induction d as [|[k grp'] d IH]; simpl; intros N.
  - now rewrite String.eqb_refl.
  - inversion N as [|? ? NI N']; subst.
    destruct (String.eqb_spec k g) as [->|NE]; simpl.
    + rewrite String.eqb_refl. f_equal. now apply group_update_absent.
    + destruct (String.eqb_spec k g); [contradiction|]. f_equal. now apply IH.
Qed.

Lemma fold_place_param (category : category) (g : string)
    (params : Dict.t param_spec) (grp : group) (d : Dict.t group) :
  NoDup (Dict.keys d) ->
  fold_left (place_param extra_params category g) params (Dict.set g grp d)
  = Dict.set g (fold_left (fill_step extra_params category) params grp) d.
Proof.
  intros N. revert grp.
  induction params as [|[name [[dflt descr] cat]] params IH]; intros grp; simpl.
  - reflexivity.
  - destruct (category_eqb cat category).
    + rewrite group_update_set by exact N. apply IH.
    + apply IH.
Qed.

(** The loop body, in terms of the group it builds. *)
Lemma add_category_eq (params : Dict.t param_spec) (d : Dict.t group)
    (category : category) :
  NoDup (Dict.keys d) ->
  add_category fw extra_params params d category =
  if str_eq_marker (Str.upper (snd category)) (HIDDEN fw) then d
  else match fill_group extra_params category params with
       | [] => Dict.del (snd category) (Dict.set (snd category) [] d)
       | grp => Dict.set (snd category) grp d
       end.
Proof.
  intros N. unfold add_category, fill_group.
  destruct (str_eq_marker _ _); [reflexivity|].
  rewrite fold_place_param by exact N.
  rewrite get_set_same.
  now destruct (fold_left (fill_step extra_params category) params []).
Qed.

Lemma add_category_nodup (params : Dict.t param_spec) (d : Dict.t group)
    (category : category) :
  NoDup (Dict.keys d) -> NoDup (Dict.keys (add_category fw extra_params params d category)).
Proof.
  intros N. rewrite add_category_eq by exact N.
  destruct (str_eq_marker _ _); [exact N|].
  destruct (fill_group _ _ _).
  - now apply nodup_del, nodup_set.
  - now apply nodup_set.
Qed.

(** Induction over the loop on the categories. *)
Lemma group_params_ind (params : Dict.t param_spec) (P : Dict.t group -> Prop) :
  P [] ->
  (forall d category,
      In category (sorted_categories fw) -> NoDup (Dict.keys d) -> P d ->
      P (add_category fw extra_params params d category)) ->
  P (group_params fw extra_params params).
Proof.
  intros P0 Pstep. unfold group_params.
  assert (G : forall cats d,
             incl cats (sorted_categories fw) -> NoDup (Dict.keys d) -> P d ->
             P (fold_left (add_category fw extra_params params) cats d)).
  { induction cats as [|c cats IH]; intros d I N Pd; simpl; [exact Pd|].
    apply IH.
    - intros x Hx. apply I. now right.
    - now apply add_category_nodup.
    - apply Pstep; auto. apply I. now left. }
  apply G; [apply incl_refl|constructor|exact P0].
Qed.

(** Where the items of a group come from. *)
Lemma fill_step_source (category : category) (params : Dict.t param_spec)
    (acc : group) (k : string) (v : string * pyval) :
  In (k, v) (fold_left (fill_step extra_params category) params acc) ->
  In (k, v) acc \/
  exists name dflt descr,
    In (name, (dflt, descr, category)) params
    /\ k = display_name extra_params name /\ v = (descr, dflt).
Proof.
  revert acc. induction params as [|[name [[dflt descr] cat]] params IH]; intros acc; simpl.
  - auto.
  - intros H. apply IH in H. destruct H as [H|(n & df & de & I & E)].
    + destruct (category_eqb cat category) eqn:C; [|now left].
      apply category_eqb_eq in C. subst cat.
      apply in_set in H. destruct H as [E|H]; [|now left].
      injection E as -> ->. right. exists name, dflt, descr. auto.
    + right. exists n, df, de. auto.
Qed.

Lemma grouped_entry_source (params : Dict.t param_spec) :
  forall g grp k v,
    In (g, grp) (group_params fw extra_params params) -> In (k, v) grp ->
    from_listed_category fw extra_params params g k v.
Proof.
  apply group_params_ind.
  - intros g grp k v [].
  - intros d c Ic N IH g grp k v. rewrite add_category_eq by exact N.
    destruct (str_eq_marker _ _) eqn:Hid; [apply IH|].
    assert (New : In (k, v) (fill_group extra_params c params) ->
                  snd c = g -> from_listed_category fw extra_params params g k v).
    { intros H E. apply fill_step_source in H.
      destruct H as [[]|(n & df & de & I & -> & ->)].
      exists n, c. simpl. auto. }
    destruct (fill_group extra_params c params) as [|x grp'] eqn:F.
    + intros H. apply in_del, in_set in H. destruct H as [E|H]; [|now apply IH].
      injection E as Eg Egrp. subst grp. intros [].
    + intros H. apply in_set in H. destruct H as [E|H]; [|now apply IH].
      injection E as Eg Egrp. subst grp. intros H. now apply New.
Qed.

Lemma group_params_nonempty (params : Dict.t param_spec) :
  all_nonempty (group_params fw extra_params params).
Proof.
  apply group_params_ind.
  - intros g grp [].
  - intros d c Ic N IH g grp. rewrite add_category_eq by exact N.
    destruct (str_eq_marker _ _); [apply IH|].
    destruct (fill_group extra_params c params) as [|x grp'].
    + intros H. apply in_del_neq in H. destruct H as [H NE].
      apply in_set in H. destruct H as [E|H]; [|now apply (IH g)].
      injection E as Eg Egrp. now elim NE.
    + intros H. apply in_set in H. destruct H as [E|H]; [|now apply (IH g)].
      injection E as Eg Egrp. subst grp. discriminate.
Qed.

Lemma group_params_nodup (params : Dict.t param_spec) :
  NoDup (Dict.keys (group_params fw extra_params params)).
Proof.
  unfold group_params.
  assert (G : forall cats d, NoDup (Dict.keys d) ->
             NoDup (Dict.keys (fold_left (add_category fw extra_params params) cats d))).
  { induction cats as [|c cats IH]; intros d N; simpl; [exact N|].
    now apply IH, add_category_nodup. }
  apply G. constructor.
Qed.

(** Parameters that no listed category matches do not take part. *)
Lemma fold_place_param_filter (category : category) (g : string) (keep : string * param_spec -> bool)
    (params : Dict.t param_spec) (d : Dict.t group) :
  (forall item, In item params -> keep item = false ->
                category_eqb (snd (snd item)) category = false) ->
  fold_left (place_param extra_params category g) (filter keep params) d
  = fold_left (place_param extra_params category g) params d.
Proof.
  revert d. induction params as [|item params IH]; intros d H; [reflexivity|].
  assert (H' : forall item, In item params -> keep item = false ->
                 category_eqb (snd (snd item)) category = false)
    by (intros x I; apply H; now right).
  cbn [filter fold_left]. destruct (keep item) eqn:K; cbn [fold_left].
  - now apply IH.
  - rewrite IH by exact H'. f_equal.
    pose proof (H item (or_introl eq_refl) K) as E.
    destruct item as [name [[dflt descr] cat]]. simpl in E.
    unfold place_param. now rewrite E.
Qed.

Lemma add_category_filter (keep : string * param_spec -> bool)
    (params : Dict.t param_spec) (d : Dict.t group) (category : category) :
  (str_eq_marker (Str.upper (snd category)) (HIDDEN fw) = false ->
   forall item, In item params -> keep item = false ->
                category_eqb (snd (snd item)) category = false) ->
  add_category fw extra_params (filter keep params) d category
  = add_category fw extra_params params d category.
Proof.
  intros H. unfold add_category.
  destruct (str_eq_marker _ _); [reflexivity|].
  now rewrite fold_place_param_filter by (now apply H).
Qed.

Lemma group_params_filter (keep : string * param_spec -> bool)
    (params : Dict.t param_spec) :
  (forall category,
      In category (sorted_categories fw) ->
      str_eq_marker (Str.upper (snd category)) (HIDDEN fw) = false ->
      forall item, In item params -> keep item = false ->
                   category_eqb (snd (snd item)) category = false) ->
  group_params fw extra_params (filter keep params) = group_params fw extra_params params.
Proof.
  intros H. unfold group_params.
  assert (G : forall cats d,
             incl cats (sorted_categories fw) ->
             fold_left (add_category fw extra_params (filter keep params)) cats d
             = fold_left (add_category fw extra_params params) cats d).
  { induction cats as [|c cats IH]; intros d I; simpl; [reflexivity|].
    rewrite add_category_filter.
    - apply IH. intros x Hx. apply I. now right.
    - apply H. apply I. now left. }
  apply G, incl_refl.
Qed.
End Grouping.

(** ** Lengths of rendered cells *)

Lemma length_append (a b : string) :
  String.length (a ++ b) = String.length a + String.length b.
Proof. induction a as [|c a IH]; simpl; [reflexivity|now rewrite IH]. Qed.

Lemma length_replicate (n : nat) (c : ascii) : String.length (Str.replicate n c) = n.
Proof. induction n as [|n IH]; simpl; [reflexivity|now rewrite IH]. Qed.

Lemma length_ljust (c : ascii) (w : nat) (s : string) :
  String.length (Str.ljust c w s) = Nat.max w (String.length s).
Proof. unfold Str.ljust. rewrite length_append, length_replicate. lia. Qed.

Lemma length_line_tmpl (nw dw dfw : nat) (c : ascii) (a b d : string) :
  String.length a <= nw -> String.length b <= dw -> String.length d <= dfw ->
  String.length (line_tmpl nw dw dfw c a b d) = nw + 3 + dw + 3 + dfw.
Proof.
  intros Ha Hb Hd. unfold line_tmpl.
  rewrite !length_append, !length_ljust. simpl. lia.
Qed.

Lemma in_insert_sorted {V : Type} (x kv : string * V) (l : Dict.t V) :
  In x (Dict.insert_sorted kv l) <-> x = kv \/ In x l.
Proof.
  induction l as [|kv' l IH]; simpl.
  - intuition.
  - destruct (String.leb (fst kv) (fst kv')); simpl; rewrite ?IH; intuition.
Qed.

Lemma in_sorted_items {V : Type} (x : string * V) (d : Dict.t V) :
  In x (Dict.sorted_items d) <-> In x d.
Proof.
  unfold Dict.sorted_items. induction d as [|kv d IH]; simpl; [tauto|].
  rewrite in_insert_sorted, IH. intuition.
Qed.

(** In the overview of [avail_easyconfig_params_rst] the widths are taken
    over the very texts that the rows show: every cell fits its column and
    every row is as long as the table line. *)
Lemma rst_cells_fit (fw : framework) (grp : group) (nw dw dfw : nat) :
  rst_widths fw grp = Ok (nw, dw, dfw) ->
  forall name descr dflt,
    In (name, (descr, dflt)) (Dict.sorted_items grp) ->
    String.length ("``" ++ name ++ "``") <= nw
    /\ String.length descr <= dw
    /\ String.length (py_str (quote_str fw dflt)) <= dfw
    /\ String.length (rst_row fw nw dw dfw (name, (descr, dflt)))
       = String.length (line_tmpl nw dw dfw "=" "" "" "").
Proof.
  unfold rst_widths. intros W name descr dflt I. apply (proj1 (in_sorted_items _ _)) in I.
  destruct (det_col_width (Dict.keys grp) name_title) as [w1|] eqn:E1; [|discriminate].
  destruct (det_col_width (map fst (Dict.values grp)) descr_title) as [w2|] eqn:E2;
    [|discriminate].
  destruct (det_col_width (map _ (Dict.values grp)) dflt_title) as [w3|] eqn:E3;
    [|discriminate].
  simpl in W. injection W as <- <- <-.
  apply det_col_width_bounds in E1, E2, E3.
  destruct E1 as [_ B1], E2 as [_ B2], E3 as [_ B3].
  assert (L1 : String.length name <= w1).
  { apply B1. unfold Dict.keys. apply in_map_iff. now exists (name, (descr, dflt)). }
  assert (L2 : String.length descr <= w2).
  { apply B2. unfold Dict.values. rewrite map_map. apply in_map_iff.
    now exists (name, (descr, dflt)). }
  assert (L3 : String.length (py_str (quote_str fw dflt)) <= w3).
  { apply B3. unfold Dict.values. rewrite map_map. apply in_map_iff.
    now exists (name, (descr, dflt)). }
  assert (L1' : String.length ("``" ++ name ++ "``") <= w1 + 4).
  { rewrite !length_append. simpl. lia. }
  repeat split; try assumption.
  unfold rst_row. rewrite !length_line_tmpl; simpl; auto with arith.
Qed.

(** ** The renderers return *)

Lemma for_lines_ok {A : Type} (body : A -> list string -> result (list string))
    (l : list A) :
  (forall x, In x l -> forall lines, exists lines', body x lines = Ok lines') ->
  forall lines, exists out, for_lines body l lines = Ok out.
Proof.
  induction l as [|x l IH]; intros H lines; simpl.
  - now exists lines.
  - destruct (H x (or_introl eq_refl) lines) as (lines' & ->). simpl.
    apply IH. intros y I. apply H. now right.
Qed.

Lemma rst_widths_ok (fw : framework) (grp : group) : exists w, rst_widths fw grp = Ok w.
Proof.
  unfold rst_widths.
  destruct (det_col_width_spec (Dict.keys grp) name_title) as (w1 & -> & _).
  destruct (det_col_width_spec (map fst (Dict.values grp)) descr_title) as (w2 & -> & _).
  destruct (det_col_width_spec
              (map (fun x => py_str (quote_str fw (snd x))) (Dict.values grp)) dflt_title)
    as (w3 & -> & _).
  simpl. eauto.
Qed.

Lemma avail_easyconfig_params_rst_ok (fw : framework) (title : string)
    (grouped_params : Dict.t group) :
  exists out, avail_easyconfig_params_rst fw title grouped_params = Ok out.
Proof.
  unfold avail_easyconfig_params_rst.
  destruct (for_lines_ok (rst_group fw) grouped_params) with
    (lines := [title; Str.replicate (String.length title) "="; ""]) as (out & ->).
  - intros [g grp] _ lines. unfold rst_group.
    destruct (rst_widths_ok fw grp) as ([[nw dw] dfw] & ->). simpl. eauto.
  - simpl. eauto.
Qed.

Lemma avail_easyconfig_params_txt_ok (fw : framework) (title : string)
    (grouped_params : Dict.t group) :
  all_nonempty grouped_params ->
  exists out, avail_easyconfig_params_txt fw title grouped_params = Ok out.
Proof.
  intros NE. unfold avail_easyconfig_params_txt.
  destruct (for_lines_ok (txt_group fw) grouped_params) with
    (lines := [title ++ ":"; ""]) as (out & ->).
  - intros [g grp] I lines. unfold txt_group.
    destruct (py_max_spec (map String.length (Dict.keys grp))) as (m & -> & _).
    + specialize (NE g grp I). destruct grp; [congruence|discriminate].
    + simpl. eauto.
  - simpl. eauto.
Qed.

(** The plain-text renderer does fail on a group without parameters. *)
Lemma avail_easyconfig_params_txt_empty_group (fw : framework) (title g : string) :
  avail_easyconfig_params_txt fw title [(g, [])]
  = Err (ValueError "max() arg is an empty sequence").
Proof. reflexivity. Qed.

Lemma compose_output_ok (fw : framework) (output_format title : string)
    (grouped_params : Dict.t group) :
  output_format = FORMAT_RST \/ output_format = FORMAT_TXT ->
  all_nonempty grouped_params ->
  exists out, compose_output fw output_format title grouped_params = Ok out.
Proof.
  intros [->| ->] NE; unfold compose_output; simpl.
  - apply avail_easyconfig_params_rst_ok.
  - now apply avail_easyconfig_params_txt_ok.
Qed.

(** ** The hidden category *)

(** When [HIDDEN] is the hidden category itself, the test of the loop
    compares a [str] with a tuple: no category is ever skipped. *)
Lemma hidden_category_never_skipped (fw : framework) (h : category) :
  HIDDEN fw = HiddenCategory h ->
  forall c : category, str_eq_marker (Str.upper (snd c)) (HIDDEN fw) = false.
Proof. intros -> c. reflexivity. Qed.

(** When [HIDDEN] is an upper-cased label, the parameters of the categories
    with that label do not take part in the grouping. *)
Lemma hidden_label_excluded (fw : framework) (label : string)
    (extra_params params : Dict.t param_spec) :
  HIDDEN fw = HiddenLabel label ->
  group_params fw extra_params (filter (visible fw) params)
  = group_params fw extra_params params.
Proof.
  intros H. apply group_params_filter.
  intros category _ Skip [name [[dflt descr] cat]] _ V. simpl.
  destruct (category_eqb cat category) eqn:E; [|reflexivity].
  apply category_eqb_eq in E. subst cat.
  unfold visible in V. simpl in V. apply negb_false_iff in V.
  rewrite H in V, Skip. simpl in V, Skip. congruence.
Qed.

(** With [HIDDEN] an upper-cased label the category is skipped. *)
Example hidden_label_skips_category :
  fst (avail_easyconfig_params fw_label None FORMAT_TXT (store_of with_secret))
  = Ok (Str.join Str.nl
          ["Available easyconfig parameters:"; "";
           "MANDATORY";
           "---------";
           "name   Name of software [default: None]"; ""]).
Proof. vm_compute. reflexivity. Qed.

(** C1: no parameter of the hidden category appears in the output.  The
    code does not keep to it: with [HIDDEN] bound to the hidden category
    [(-1, 'hidden')], as the framework binds it, the test
    [category[1].upper() in [HIDDEN]] is false for the hidden category as
    for any other, and the parameter [secret] of that category is listed,
    in both formats. *)
Theorem hidden_parameter_is_listed :
  is_hidden (HIDDEN fw_tuple) HIDDEN_CATEGORY = true
  /\ grouped_params_of fw_tuple None (store_of with_secret)
     = [("hidden", [("secret", ("Internal switch", PBool true))]);
        ("mandatory", [("name", ("Name of software", PNone))])]
  /\ fst (avail_easyconfig_params fw_tuple None FORMAT_TXT (store_of with_secret))
     = Ok (Str.join Str.nl
             ["Available easyconfig parameters:"; "";
              "HIDDEN";
              "------";
              "secret   Internal switch [default: True]"; "";
              "MANDATORY";
              "---------";
              "name   Name of software [default: None]"; ""])
  /\ fst (avail_easyconfig_params fw_tuple None FORMAT_RST (store_of with_secret))
     = Ok (Str.join Str.nl
             ["Available easyconfig parameters";
              "==============================="; "";
              "hidden parameters";
              "-----------------"; "";
              "======================   ===============   =================";
              "**Parameter name**       **Description**   **Default value**";
              "----------------------   ---------------   -----------------";
              "``secret``               Internal switch   True             ";
              "======================   ===============   ================="; "";
              "mandatory parameters";
              "--------------------"; "";
              "======================   ================   =================";
              "**Parameter name**       **Description**    **Default value**";
              "----------------------   ----------------   -----------------";
              "``name``                 Name of software   None             ";
              "======================   ================   ================="; ""]).
Proof. repeat split; vm_compute; reflexivity. Qed.

(** ** Column widths of the tables *)

(** C2: in every table the content of a cell never exceeds the width
    computed for its column.  This holds for the table of
    [avail_easyconfig_params_rst] ([rst_cells_fit]); in [doc_easyblock] the
    width of the default-value column is taken over [str(val[0])] while the
    cell shows [str(quote_str(val[0]))] between backticks: for the default
    ['ConfigureMake'] the cell has 19 characters in a column of 17, and the
    row is longer than the table line. *)
Theorem doc_easyblock_default_cell_overflows :
  let item := ("toy_flavour", (PStr "ConfigureMake", "Flavour of the toy", CUSTOM)) in
  extra_options example_class = [item]
  /\ ex_opt_widths (extra_options example_class) = Ok (24, 18, 17)
  /\ String.length ("``" ++ py_str (quote_str fw_tuple (PStr "ConfigureMake")) ++ "``") = 19
  /\ String.length (ex_opt_row fw_tuple 24 18 17 item) = 67
  /\ String.length (line_tmpl 24 18 17 "=" "" "" "") = 65
  /\ doc_easyblock fw_tuple example_class (store_of name_only)
     = Ok (Str.join Str.nl
             ["``Toy``";
              "======="; "";
              "(derives from ``EasyBlock``)"; "";
              "Builds toys."; "";
              "Extra easyconfig parameters specific to ``Toy`` easyblock";
              "---------------------------------------------------------"; "";
              "========================   ==================   =================";
              "easyconfig parameter       description          default value    ";
              "========================   ==================   =================";
              "``toy_flavour``            Flavour of the toy   ``'ConfigureMake'``";
              "========================   ==================   ================="; ""]).
Proof. repeat split; vm_compute; reflexivity. Qed.

(** ** The text of the overview *)

Lemma fold_left_max_eq (l : list nat) (a : nat) :
  fold_left Nat.max l a = Nat.max a (fold_right Nat.max 0 l).
Proof.
  revert a. induction l as [|x l IH]; intros a; simpl; [lia|].
  rewrite IH. lia.
Qed.

Lemma py_max_eq (l : list nat) : l <> [] -> py_max l = Ok (fold_right Nat.max 0 l).
Proof.
  destruct l as [|x l]; [congruence|intros _].
  simpl. now rewrite fold_left_max_eq.
Qed.

Lemma det_col_width_eq (entries : list string) (title : string) :
  det_col_width entries title = Ok (max_length (entries +++ [title])).
Proof.
  unfold det_col_width, max_length. apply py_max_eq.
  destruct entries; discriminate.
Qed.

(** What the body of each loop appends to [lines]. *)
Lemma rst_group_eq (fw : framework) (item : string * group) (lines : list string) :
  rst_group fw item lines = Ok (lines +++ rst_block fw item).
Proof.
  destruct item as [g grp]. unfold rst_group, rst_widths, rst_block.
  rewrite !det_col_width_eq. cbn [rbind]. f_equal.
  repeat rewrite <- app_assoc. reflexivity.
Qed.

Lemma txt_group_eq (fw : framework) (item : string * group) (lines : list string) :
  snd item <> [] ->
  txt_group fw item lines = Ok (lines +++ txt_block fw item).
Proof.
  destruct item as [g grp]. simpl. intros NE. unfold txt_group, txt_block.
  rewrite py_max_eq by (destruct grp; [congruence|discriminate]).
  cbn [rbind]. f_equal. repeat rewrite <- app_assoc. reflexivity.
Qed.

Lemma for_lines_blocks {A : Type} (body : A -> list string -> result (list string))
    (block : A -> list string) (l : list A) :
  (forall x, In x l -> forall lines, body x lines = Ok (lines +++ block x)) ->
  forall lines, for_lines body l lines = Ok (lines +++ flat_map block l).
Proof.
  induction l as [|x l IH]; intros H lines; simpl.
  - now rewrite app_nil_r.
  - rewrite (H x (or_introl eq_refl)). cbn [rbind].
    rewrite IH by (intros y I; apply H; now right).
    now rewrite <- app_assoc.
Qed.

(** The two texts, line by line. *)
Lemma avail_easyconfig_params_rst_eq (fw : framework) (title : string)
    (grouped_params : Dict.t group) :
  avail_easyconfig_params_rst fw title grouped_params
  = Ok (Str.join Str.nl
          ([title; Str.replicate (String.length title) "="; ""]
           +++ flat_map (rst_block fw) grouped_params)).
Proof.
  unfold avail_easyconfig_params_rst.
  rewrite (for_lines_blocks (rst_group fw) (rst_block fw)); [reflexivity|].
  intros item _ lines. apply rst_group_eq.
Qed.

Lemma avail_easyconfig_params_txt_eq (fw : framework) (title : string)
    (grouped_params : Dict.t group) :
  all_nonempty grouped_params ->
  avail_easyconfig_params_txt fw title grouped_params
  = Ok (Str.join Str.nl ([title ++ ":"; ""] +++ flat_map (txt_block fw) grouped_params)).
Proof.
  intros NE. unfold avail_easyconfig_params_txt.
  rewrite (for_lines_blocks (txt_group fw) (txt_block fw)); [reflexivity|].
  intros [g grp] I lines. apply txt_group_eq. simpl. exact (NE g grp I).
Qed.

(** A line of a block of a group is a line of the text. *)
Lemma line_of_block_in_text {A : Type} (block : A -> list string) (l : list A)
    (head : list string) (x : A) (line : string) :
  In x l -> In line (block x) ->
  exists before after, (head +++ flat_map block l) = (before +++ [line] +++ after).
Proof.
  intros Ix Il.
  assert (I : In line (head +++ flat_map block l)).
  { apply in_or_app. right. apply in_flat_map. now exists x. }
  destruct (in_split _ _ I) as (before & after & E).
  exists before, after. exact E.
Qed.

(** ** The mark of easyblock-specific parameters *)

(** C3: every parameter of the aggregated output that comes from the extra
    set is listed under its name with ['*'] appended, every other one under
    its own name, in both formats: an item of a group stems from a parameter
    of the working table and carries that mark or not, the plain text has
    the line of the item, which starts with its name, and the rst text has
    the row of the item, which starts with its name between backticks. *)
Theorem easyblock_specific_names_starred (fw : framework) (easyblock : option string)
    (output_format : string) (s : store) (g : string) (grp : group)
    (k descr : string) (dflt : pyval) :
  In (g, grp) (grouped_params_of fw easyblock s) ->
  In (k, (descr, dflt)) grp ->
  fst (avail_easyconfig_params fw easyblock output_format s)
  = compose_output fw output_format (title_of fw easyblock) (grouped_params_of fw easyblock s)
  /\ (exists name cat,
        In (name, (dflt, descr, cat)) (working_table fw easyblock s)
        /\ snd cat = g
        /\ (In name (Dict.keys (extra_params_for fw easyblock)) /\ k = name ++ "*"
            \/ ~ In name (Dict.keys (extra_params_for fw easyblock)) /\ k = name))
  /\ (exists before after,
        fst (avail_easyconfig_params fw easyblock FORMAT_TXT s)
        = Ok (Str.join Str.nl
                (before
                 +++ [Str.ljust " " (max_length (Dict.keys grp)) k ++ "   " ++ descr
                      ++ " [default: " ++ py_str (quote_str fw dflt) ++ "]"]
                 +++ after)))
  /\ (exists before after nw dw dfw,
        rst_widths fw grp = Ok (nw, dw, dfw)
        /\ fst (avail_easyconfig_params fw easyblock FORMAT_RST s)
           = Ok (Str.join Str.nl
                   (before
                    +++ [Str.ljust " " nw ("``" ++ k ++ "``") ++ "   "
                         ++ Str.ljust " " dw descr ++ "   "
                         ++ Str.ljust " " dfw (py_str (quote_str fw dflt))]
                    +++ after))).
Proof.
  intros G I. split; [now rewrite avail_easyconfig_params_eq|split; [|split]].
  - destruct (grouped_entry_source _ _ _ _ _ _ _ G I) as (name & cat & S & _ & L & _ & K).
    exists name, cat. simpl in S. repeat split; auto.
    unfold display_name in K.
    destruct (Dict.mem name (extra_params_for fw easyblock)) eqn:M.
    + left. split; [now apply mem_true_iff|exact K].
    + right. split; [|exact K]. intros C. apply mem_true_iff in C. congruence.
  - rewrite avail_easyconfig_params_eq. cbn [fst].
    unfold compose_output. cbn [avail_easyconfig_params_functions Dict.get].
    change (String.eqb FORMAT_RST FORMAT_TXT) with false.
    change (String.eqb FORMAT_TXT FORMAT_TXT) with true. cbn iota.
    rewrite avail_easyconfig_params_txt_eq
      by (unfold grouped_params_of; apply group_params_nonempty).
    destruct (line_of_block_in_text (txt_block fw) (grouped_params_of fw easyblock s)
                [title_of fw easyblock ++ ":"; ""] (g, grp)
                (txt_row fw (max_length (Dict.keys grp)) (k, (descr, dflt))) G)
      as (before & after & E).
    { unfold txt_block. apply in_or_app. right. apply in_or_app. left.
      apply in_map. now apply in_sorted_items. }
    exists before, after. rewrite E. reflexivity.
  - rewrite avail_easyconfig_params_eq. cbn [fst].
    unfold compose_output. cbn [avail_easyconfig_params_functions Dict.get].
    change (String.eqb FORMAT_RST FORMAT_RST) with true. cbn iota.
    rewrite avail_easyconfig_params_rst_eq.
    set (nw := max_length (Dict.keys grp +++ [name_title]) + 4).
    set (dw := max_length (map fst (Dict.values grp) +++ [descr_title])).
    set (dfw := max_length (map (fun x => py_str (quote_str fw (snd x))) (Dict.values grp)
                            +++ [dflt_title])).
    destruct (line_of_block_in_text (rst_block fw) (grouped_params_of fw easyblock s)
                [title_of fw easyblock;
                 Str.replicate (String.length (title_of fw easyblock)) "="; ""] (g, grp)
                (rst_row fw nw dw dfw (k, (descr, dflt))) G)
      as (before & after & E).
    { unfold rst_block. fold nw dw dfw. apply in_or_app. right. apply in_or_app. left.
      apply in_map. now apply in_sorted_items. }
    exists before, after, nw, dw, dfw. split.
    + unfold rst_widths. rewrite !det_col_width_eq. reflexivity.
    + rewrite E. reflexivity.
Qed.

Lemma easyblock_specific_names_starred_witness :
  let grp := [("toy_flavour*", ("Flavour of the toy", PStr "ConfigureMake"))] in
  In ("easyblock-specific", grp) (grouped_params_of fw_tuple (Some "Toy") (store_of name_only))
  /\ In ("toy_flavour*", ("Flavour of the toy", PStr "ConfigureMake")) grp
  /\ (exists name cat,
        In (name, (PStr "ConfigureMake", "Flavour of the toy", cat))
           (working_table fw_tuple (Some "Toy") (store_of name_only))
        /\ snd cat = "easyblock-specific"
        /\ (In name (Dict.keys (extra_params_for fw_tuple (Some "Toy")))
            /\ "toy_flavour*" = name ++ "*"
            \/ ~ In name (Dict.keys (extra_params_for fw_tuple (Some "Toy")))
               /\ "toy_flavour*" = name))
  /\ (exists before after,
        fst (avail_easyconfig_params fw_tuple (Some "Toy") FORMAT_TXT (store_of name_only))
        = Ok (Str.join Str.nl
                (before
                 +++ ["toy_flavour*   Flavour of the toy [default: 'ConfigureMake']"]
                 +++ after))).
Proof.
  intros grp.
  assert (G : In ("easyblock-specific", grp)
                (grouped_params_of fw_tuple (Some "Toy") (store_of name_only)))
    by (vm_compute; auto).
  assert (I : In ("toy_flavour*", ("Flavour of the toy", PStr "ConfigureMake")) grp)
    by (simpl; auto).
  split; [exact G|split; [exact I|]].
  pose proof (easyblock_specific_names_starred fw_tuple (Some "Toy") FORMAT_TXT
                (store_of name_only) _ _ _ _ _ G I) as (_ & Src & Txt & _).
  split; [exact Src|exact Txt].
Defined.

(** ** det_col_width *)

(** C4 as the code has it: [det_col_width] returns the maximum length over
    the entries and the title for every input; the title is always an
    element of the sequence given to [max], so there is no input on which
    it raises, and with no entries and an empty title the result is 0. *)
Theorem det_col_width_is_max (entries : list string) (title : string) :
  exists w,
    det_col_width entries title = Ok w
    /\ (exists e, In e (entries ++ [title])%list /\ String.length e = w)
    /\ (forall e, In e (entries ++ [title])%list -> String.length e <= w).
Proof. exact (det_col_width_spec entries title). Qed.

(** C4 as stated fails: with an empty sequence and an empty title the
    function returns 0, it does not raise. *)
Lemma det_col_width_empty_returns :
  det_col_width [] "" = Ok 0 /\ forall e, det_col_width [] "" <> Err e.
Proof. split; [reflexivity|discriminate]. Qed.

(** ** Empty groups *)

(** A group that is left without parameters is deleted by the aggregator,
    before any renderer is called: every group of the grouping has a
    parameter; a label whose parameters are all in categories that the test
    of the aggregator skips, or that no parameter matches, has no group; and
    so the [max] of the plain-text renderer is never taken over an empty
    sequence: both renderers return. *)
Theorem no_empty_group_is_rendered (fw : framework) (easyblock : option string) (s : store) :
  all_nonempty (grouped_params_of fw easyblock s)
  /\ (forall g,
        (forall name dflt descr cat,
            In (name, (dflt, descr, cat)) (working_table fw easyblock s) ->
            In cat (sorted_categories fw) -> snd cat = g ->
            str_eq_marker (Str.upper (snd cat)) (HIDDEN fw) = true) ->
        ~ In g (Dict.keys (grouped_params_of fw easyblock s)))
  /\ (exists out, fst (avail_easyconfig_params fw easyblock FORMAT_TXT s) = Ok out)
  /\ (exists out, fst (avail_easyconfig_params fw easyblock FORMAT_RST s) = Ok out).
Proof.
  pose proof (group_params_nonempty fw (extra_params_for fw easyblock)
                (working_table fw easyblock s)) as NE.
  fold (grouped_params_of fw easyblock s) in NE.
  split; [exact NE|split; [|split]].
  - intros g Hg I. unfold Dict.keys in I. apply in_map_iff in I.
    destruct I as ([g' grp] & E & I). simpl in E. subst g'.
    destruct grp as [|[k v] grp]; [now apply (NE g [])|].
    destruct (grouped_entry_source _ _ _ _ _ _ _ I (or_introl eq_refl))
      as (name & cat & S & L & E & Shown & _).
    rewrite (Hg _ _ _ _ S L E) in Shown. discriminate.
  - rewrite avail_easyconfig_params_eq. simpl.
    apply compose_output_ok; [now right|exact NE].
  - rewrite avail_easyconfig_params_eq. simpl.
    apply compose_output_ok; [now left|exact NE].
Qed.

(** C5: a category group in which every parameter is hidden is absent from
    the output.  The code does not keep to it, by the defect of C1: with
    [HIDDEN] bound to the hidden category the test of the aggregator never
    skips a category, so for a table whose only parameter is of the hidden
    category the group [hidden] is built, is not empty, is not deleted, and
    is rendered in both formats. *)
Theorem hidden_only_group_is_rendered :
  (forall item, In item secret_only -> is_hidden (HIDDEN fw_tuple) (snd (snd item)) = true)
  /\ grouped_params_of fw_tuple None (store_of secret_only)
     = [("hidden", [("secret", ("Internal switch", PBool true))])]
  /\ fst (avail_easyconfig_params fw_tuple None FORMAT_TXT (store_of secret_only))
     = Ok (Str.join Str.nl
             ["Available easyconfig parameters:"; "";
              "HIDDEN";
              "------";
              "secret   Internal switch [default: True]"; ""])
  /\ fst (avail_easyconfig_params fw_tuple None FORMAT_RST (store_of secret_only))
     = Ok (Str.join Str.nl
             ["Available easyconfig parameters";
              "==============================="; "";
              "hidden parameters";
              "-----------------"; "";
              "======================   ===============   =================";
              "**Parameter name**       **Description**   **Default value**";
              "----------------------   ---------------   -----------------";
              "``secret``               Internal switch   True             ";
              "======================   ===============   ================="; ""]).
Proof.
  split.
  - intros item [<-|[]]. reflexivity.
  - repeat split; vm_compute; reflexivity.
Qed.

(** ** The output format *)

(** C6: for every output format other than ['rst'] and ['txt'] the call
    ends in the [KeyError] of the lookup in the table of renderers. *)
Theorem unknown_format_key_error (fw : framework) (easyblock : option string)
    (output_format : string) (s : store) :
  output_format <> FORMAT_RST -> output_format <> FORMAT_TXT ->
  fst (avail_easyconfig_params fw easyblock output_format s) = Err (KeyError output_format).
Proof.
  intros R T. rewrite avail_easyconfig_params_eq. cbn [fst].
  unfold compose_output, avail_easyconfig_params_functions, Dict.get.
  destruct (String.eqb_spec FORMAT_RST output_format) as [E|_]; [now elim R|].
  destruct (String.eqb_spec FORMAT_TXT output_format) as [E|_]; [now elim T|].
  reflexivity.
Qed.

Lemma unknown_format_key_error_witness :
  "md" <> FORMAT_RST /\ "md" <> FORMAT_TXT
  /\ fst (avail_easyconfig_params fw_tuple (Some "Toy") "md" (store_of name_only))
     = Err (KeyError "md").
Proof.
  assert (R : "md" <> FORMAT_RST) by discriminate.
  assert (T : "md" <> FORMAT_TXT) by discriminate.
  split; [exact R|split; [exact T|]].
  exact (unknown_format_key_error fw_tuple (Some "Toy") "md" (store_of name_only) R T).
Defined.

(** ** Easyblocks that do not resolve *)

Lemma update_nil {V : Type} (d : Dict.t V) : Dict.update [] d = d.
Proof. reflexivity. Qed.

(** C7: when the class resolution returns no class, the call does not fail
    on that account: its result is the overview of the default parameters
    alone under the plain title, the same as for a call without easyblock,
    it is a text for both known formats, and every name listed is the name
    of a default parameter as it stands. *)
Theorem unresolved_easyblock_is_tolerated (fw : framework) (easyblock : option string)
    (output_format : string) (s : store) :
  get_easyblock_class fw easyblock = None ->
  fst (avail_easyconfig_params fw easyblock output_format s)
  = compose_output fw output_format "Available easyconfig parameters"
      (group_params fw [] (DEFAULT_CONFIG s))
  /\ (get_easyblock_class fw None = None ->
      fst (avail_easyconfig_params fw easyblock output_format s)
      = fst (avail_easyconfig_params fw None output_format s))
  /\ (output_format = FORMAT_RST \/ output_format = FORMAT_TXT ->
      exists out, fst (avail_easyconfig_params fw easyblock output_format s) = Ok out)
  /\ (forall g grp k descr dflt,
        In (g, grp) (grouped_params_of fw easyblock s) -> In (k, (descr, dflt)) grp ->
        exists cat, In (k, (dflt, descr, cat)) (DEFAULT_CONFIG s)).
Proof.
  intros H.
  assert (E : forall eb, get_easyblock_class fw eb = None ->
                fst (avail_easyconfig_params fw eb output_format s)
                = compose_output fw output_format "Available easyconfig parameters"
                    (group_params fw [] (DEFAULT_CONFIG s))).
  { intros eb Heb. rewrite avail_easyconfig_params_eq. simpl.
    unfold title_of, grouped_params_of, working_table, extra_params_for.
    now rewrite Heb. }
  split; [now apply E|split; [|split]].
  - intros H0. now rewrite (E _ H), (E _ H0).
  - intros F. rewrite avail_easyconfig_params_eq. simpl.
    apply compose_output_ok; [exact F|apply group_params_nonempty].
  - intros g grp k descr dflt G I.
    destruct (grouped_entry_source _ _ _ _ _ _ _ G I) as (name & cat & S & _ & _ & _ & K).
    exists cat. unfold working_table, extra_params_for in S. rewrite H in S.
    unfold extra_params_for in K. rewrite H in K. simpl in S, K. now subst k.
Qed.

Lemma unresolved_easyblock_is_tolerated_witness :
  get_easyblock_class fw_tuple (Some "NoSuchEasyblock") = None
  /\ fst (avail_easyconfig_params fw_tuple (Some "NoSuchEasyblock") FORMAT_TXT
            (store_of name_only))
     = compose_output fw_tuple FORMAT_TXT "Available easyconfig parameters"
         (group_params fw_tuple [] (DEFAULT_CONFIG (store_of name_only))).
Proof.
  assert (H : get_easyblock_class fw_tuple (Some "NoSuchEasyblock") = None) by reflexivity.
  split; [exact H|].
  exact (proj1 (unresolved_easyblock_is_tolerated fw_tuple (Some "NoSuchEasyblock")
                  FORMAT_TXT (store_of name_only) H)).
Defined.

(** ** The shared default table *)

(** An update through a reference to the shared table would show in it. *)
Remark update_of_shared_table_is_visible :
  DEFAULT_CONFIG (dict_update Default (extra_options example_class) (store_of name_only))
  <> DEFAULT_CONFIG (store_of name_only).
Proof. vm_compute. discriminate. Qed.

(** C8: a call leaves [DEFAULT_CONFIG] as it was.  The update is applied to
    the copy, a new object: the default table and every object that existed
    before the call are unchanged, and a later call gives what it would have
    given without the earlier one. *)
Theorem default_config_is_not_mutated (fw : framework) (easyblock : option string)
    (output_format : string) (s : store) :
  let s' := snd (avail_easyconfig_params fw easyblock output_format s) in
  DEFAULT_CONFIG s' = DEFAULT_CONFIG s
  /\ heap s' = (heap s ++ [Dict.update (extra_params_for fw easyblock) (DEFAULT_CONFIG s)])%list
  /\ forall easyblock' output_format',
       fst (avail_easyconfig_params fw easyblock' output_format' s')
       = fst (avail_easyconfig_params fw easyblock' output_format' s).
Proof.
  rewrite avail_easyconfig_params_eq. cbn [snd DEFAULT_CONFIG heap].
  split; [reflexivity|split; [reflexivity|]].
  intros easyblock' output_format'. rewrite !avail_easyconfig_params_eq. reflexivity.
Qed.

(** ** The example of the spec *)

(** The grouping of the table [name_only], whatever other categories the
    canonical order lists. *)
Lemma group_params_name_only (fw : framework) :
  In BUILD10 (sorted_categories fw) ->
  (forall c, In c (sorted_categories fw) -> snd c = "BUILD" -> c = BUILD10) ->
  str_eq_marker (Str.upper "BUILD") (HIDDEN fw) = false ->
  group_params fw [] name_only = name_only_grouped.
Proof.
  intros I U V. unfold group_params.
  assert (Step : forall c d,
             (snd c = "BUILD" -> c = BUILD10) ->
             d = [] \/ d = name_only_grouped ->
             add_category fw [] name_only d c
             = if category_eqb BUILD10 c then name_only_grouped else d).
  { intros c d Uc Hd.
    assert (N : NoDup (Dict.keys d)).
    { destruct Hd as [-> | ->]; repeat constructor; simpl; tauto. }
    destruct (category_eqb BUILD10 c) eqn:E.
    - apply category_eqb_eq in E. subst c. unfold add_category.
      change (snd BUILD10) with "BUILD". rewrite V.
      destruct Hd as [-> | ->]; reflexivity.
    - rewrite add_category_eq by exact N.
      destruct (str_eq_marker (Str.upper (snd c)) (HIDDEN fw)); [reflexivity|].
      unfold fill_group, name_only. simpl. rewrite E.
      apply del_set_absent. intros K.
      assert (B : snd c = "BUILD").
      { destruct Hd as [-> | ->]; simpl in K; [contradiction|]. destruct K as [K|[]]. auto. }
      rewrite (Uc B), category_eqb_refl in E. discriminate. }
  assert (G : forall cats d,
             (forall c, In c cats -> snd c = "BUILD" -> c = BUILD10) ->
             d = [] \/ d = name_only_grouped ->
             fold_left (add_category fw [] name_only) cats d
             = if existsb (category_eqb BUILD10) cats then name_only_grouped else d).
  { induction cats as [|c cats IH]; intros d Uc Hd; [reflexivity|].
    assert (Uc' : forall x, In x cats -> snd x = "BUILD" -> x = BUILD10)
      by (intros x Hx; apply Uc; now right).
    cbn [fold_left existsb].
    rewrite Step; [|apply Uc; now left|exact Hd].
    destruct (category_eqb BUILD10 c); cbn [orb].
    - rewrite IH; [|exact Uc'|now right].
      now destruct (existsb (category_eqb BUILD10) cats).
    - now apply IH. }
  rewrite G by auto.
  replace (existsb (category_eqb BUILD10) (sorted_categories fw)) with true; [reflexivity|].
  symmetry. apply existsb_exists. exists BUILD10. split; [exact I|apply category_eqb_refl].
Qed.

(** C9: the table [{'name': ('ConfigureMake', 'Name of the software',
    (10, 'BUILD'))}], with the category [(10, 'BUILD')] listed and not
    hidden, renders in plain text as the section [BUILD] with the line of
    [name], its description and the quoted default. *)
Theorem example_name_only_txt (fw : framework) (easyblock : option string) (s : store) :
  DEFAULT_CONFIG s = name_only ->
  get_easyblock_class fw easyblock = None ->
  In BUILD10 (sorted_categories fw) ->
  (forall c, In c (sorted_categories fw) -> snd c = "BUILD" -> c = BUILD10) ->
  str_eq_marker (Str.upper "BUILD") (HIDDEN fw) = false ->
  py_str (quote_str fw (PStr "ConfigureMake")) = "'ConfigureMake'" ->
  fst (avail_easyconfig_params fw easyblock FORMAT_TXT s)
  = Ok (Str.join Str.nl
          ["Available easyconfig parameters:"; "";
           "BUILD";
           "-----";
           "name   Name of the software [default: 'ConfigureMake']"; ""]).
Proof.
  intros D R I U V Q. rewrite avail_easyconfig_params_eq. cbn [fst].
  unfold title_of, grouped_params_of, working_table, extra_params_for.
  rewrite R, D. cbn [extra_params_of compose_title]. rewrite update_nil.
  rewrite group_params_name_only by assumption.
  unfold compose_output, name_only_grouped. simpl.
  unfold avail_easyconfig_params_txt, txt_group, txt_row. simpl.
  rewrite Q. reflexivity.
Qed.

Lemma example_name_only_txt_witness :
  DEFAULT_CONFIG (store_of name_only) = name_only
  /\ get_easyblock_class fw_tuple None = None
  /\ In BUILD10 (sorted_categories fw_tuple)
  /\ (forall c, In c (sorted_categories fw_tuple) -> snd c = "BUILD" -> c = BUILD10)
  /\ str_eq_marker (Str.upper "BUILD") (HIDDEN fw_tuple) = false
  /\ py_str (quote_str fw_tuple (PStr "ConfigureMake")) = "'ConfigureMake'"
  /\ fst (avail_easyconfig_params fw_tuple None FORMAT_TXT (store_of name_only))
     = Ok (Str.join Str.nl
             ["Available easyconfig parameters:"; "";
              "BUILD";
              "-----";
              "name   Name of the software [default: 'ConfigureMake']"; ""]).
Proof.
  assert (D : DEFAULT_CONFIG (store_of name_only) = name_only) by reflexivity.
  assert (R : get_easyblock_class fw_tuple None = None) by reflexivity.
  assert (I : In BUILD10 (sorted_categories fw_tuple)) by (simpl; tauto).
  assert (U : forall c, In c (sorted_categories fw_tuple) -> snd c = "BUILD" -> c = BUILD10).
  { intros c [E|[E|[E|[E|[]]]]] B; subst c; simpl in B; try discriminate; reflexivity. }
  assert (V : str_eq_marker (Str.upper "BUILD") (HIDDEN fw_tuple) = false) by reflexivity.
  assert (Q : py_str (quote_str fw_tuple (PStr "ConfigureMake")) = "'ConfigureMake'")
    by reflexivity.
  repeat (split; [assumption|]).
  exact (example_name_only_txt fw_tuple None (store_of name_only) D R I U V Q).
Defined.

(** ** Categories that are not listed *)

Lemma listed_false (fw : framework) (item : string * param_spec) (c : category) :
  In c (sorted_categories fw) -> listed fw item = false ->
  category_eqb (snd (snd item)) c = false.
Proof.
  intros I L. unfold listed in L.
  destruct (category_eqb (snd (snd item)) c) eqn:E; [|reflexivity].
  assert (X : existsb (category_eqb (snd (snd item))) (sorted_categories fw) = true)
    by (apply existsb_exists; now exists c).
  congruence.
Qed.

(** C10: a parameter of the working table whose category is none of the
    listed ones is left out: the grouping, and with it the result in every
    format, is the one computed from the table without these parameters. *)
Theorem unlisted_category_is_omitted (fw : framework) (easyblock : option string)
    (output_format : string) (s : store) :
  let kept := filter (listed fw) (working_table fw easyblock s) in
  grouped_params_of fw easyblock s = group_params fw (extra_params_for fw easyblock) kept
  /\ fst (avail_easyconfig_params fw easyblock output_format s)
     = compose_output fw output_format (title_of fw easyblock)
         (group_params fw (extra_params_for fw easyblock) kept).
Proof.
  assert (E : group_params fw (extra_params_for fw easyblock)
                (filter (listed fw) (working_table fw easyblock s))
              = grouped_params_of fw easyblock s).
  { apply group_params_filter. intros c I _ item _ L. exact (listed_false fw item c I L). }
  cbn zeta. rewrite E. split; [reflexivity|now rewrite avail_easyconfig_params_eq].
Qed.

(** The parameter [stray] of category [(42, 'stray')] is in the table and
    not in the overview. *)
Example stray_parameter_is_omitted :
  fst (avail_easyconfig_params fw_tuple None FORMAT_TXT (store_of with_unlisted))
  = Ok (Str.join Str.nl
          ["Available easyconfig parameters:"; "";
           "MANDATORY";
           "---------";
           "name   Name of software [default: None]"; ""]).
Proof. vm_compute. reflexivity. Qed.

(** * The remaining code *)

(** ** Dictionaries: lookup after assignment, deletion and update *)

Section DictLookup.
Context {V : Type}.
Implicit Types (d e : Dict.t V) (k : string) (v : V).

Lemma set_absent d k v : ~ In k (Dict.keys d) -> Dict.set k v d = (d ++ [(k, v)])%list.
Proof.
  induction d as [|[k' v'] d IH]; simpl; intros N; [reflexivity|].
  destruct (String.eqb_spec k' k) as [->|NE]; [exfalso; auto|].
  f_equal. apply IH. auto.
Qed.

Lemma get_set_other d k k' v : k' <> k -> Dict.get k' (Dict.set k v d) = Dict.get k' d.
Proof.
  intros NE. induction d as [|[k0 v0] d IH]; simpl.
  - destruct (String.eqb_spec k k'); [congruence|reflexivity].
  - destruct (String.eqb_spec k0 k) as [->|N0]; simpl.
    + destruct (String.eqb_spec k k'); [congruence|].
      destruct (String.eqb_spec k k'); [congruence|reflexivity].
    + destruct (String.eqb_spec k0 k'); [reflexivity|exact IH].
Qed.

Lemma get_del_same d k : Dict.get k (Dict.del k d) = None.
Proof.
  induction d as [|[k0 v0] d IH]; simpl; [reflexivity|].
  destruct (String.eqb_spec k0 k) as [->|N0]; simpl; [exact IH|].
  destruct (String.eqb_spec k0 k); [contradiction|exact IH].
Qed.

Lemma get_del_other d k k' : k' <> k -> Dict.get k' (Dict.del k d) = Dict.get k' d.
Proof.
  intros NE. induction d as [|[k0 v0] d IH]; simpl; [reflexivity|].
  destruct (String.eqb_spec k0 k) as [->|N0]; simpl.
  - destruct (String.eqb_spec k k'); [congruence|exact IH].
  - destruct (String.eqb_spec k0 k'); [reflexivity|exact IH].
Qed.

Lemma get_none_iff d k : Dict.get k d = None <-> ~ In k (Dict.keys d).
Proof.
  induction d as [|[k0 v0] d IH]; simpl; [tauto|].
  destruct (String.eqb_spec k0 k) as [->|N0].
  - split; [discriminate|intros N; exfalso; auto].
  - rewrite IH. tauto.
Qed.

Lemma get_some_in d k v : Dict.get k d = Some v -> In (k, v) d.
Proof.
  induction d as [|[k0 v0] d IH]; simpl; [discriminate|].
  destruct (String.eqb_spec k0 k) as [->|N0].
  - intros E; injection E as ->. now left.
  - intros E. right. now apply IH.
Qed.

Lemma keys_set_in d k v : In k (Dict.keys (Dict.set k v d)).
Proof.
  apply Decidable.not_not.
  - destruct (in_dec string_dec k (Dict.keys (Dict.set k v d))); [now left|now right].
  - intros N. apply get_none_iff in N. rewrite get_set_same in N. discriminate.
Qed.

Lemma keys_set_keep d k k' v : In k' (Dict.keys d) -> In k' (Dict.keys (Dict.set k v d)).
Proof.
  intros I. destruct (string_dec k' k) as [->|NE]; [apply keys_set_in|].
  apply Decidable.not_not.
  - destruct (in_dec string_dec k' (Dict.keys (Dict.set k v d))); [now left|now right].
  - intros N. apply get_none_iff in N. rewrite get_set_other in N by exact NE.
    apply get_none_iff in N. contradiction.
Qed.

(** Lookup in [d.update(e)], for a dict [e]. *)
Lemma get_update d e k :
  NoDup (Dict.keys e) ->
  Dict.get k (Dict.update e d)
  = match Dict.get k e with
    | Some v => Some v
    | None => Dict.get k d
    end.
Proof.
  unfold Dict.update. revert d. induction e as [|[k1 v1] e IH]; intros d N; simpl.
  - reflexivity.
  - inversion N as [|? ? NI N']; subst. rewrite IH by exact N'.
    destruct (String.eqb_spec k1 k) as [->|NE].
    + replace (Dict.get k e) with (@None V) by (symmetry; now apply get_none_iff).
      apply get_set_same.
    + destruct (Dict.get k e); [reflexivity|]. apply get_set_other. congruence.
Qed.

Lemma keys_update_keep d e k : In k (Dict.keys d) -> In k (Dict.keys (Dict.update e d)).
Proof.
  unfold Dict.update. revert d. induction e as [|[k1 v1] e IH]; intros d I; simpl.
  - exact I.
  - apply IH. now apply keys_set_keep.
Qed.
End DictLookup.

(** ** Grouping: order of the groups and content of each *)

Section GroupingOrder.
Variable fw : framework.
Variable extra_params : Dict.t param_spec.
Variable params : Dict.t param_spec.

Lemma keys_app {V : Type} (d e : Dict.t V) :
  Dict.keys (d ++ e)%list = (Dict.keys d ++ Dict.keys e)%list.
Proof. unfold Dict.keys. apply map_app. Qed.

Lemma add_category_fresh (d : Dict.t group) (c : category) :
  NoDup (Dict.keys d) -> ~ In (snd c) (Dict.keys d) ->
  add_category fw extra_params params d c
  = (d ++ groups_in_order fw extra_params params [c])%list.
Proof.
  intros N F. rewrite add_category_eq by exact N.
  unfold groups_in_order, group_of_category, shown. simpl.
  destruct (str_eq_marker _ _); simpl; [now rewrite app_nil_r|].
  destruct (fill_group extra_params c params) as [|x grp]; simpl.
  - rewrite app_nil_r. now apply del_set_absent.
  - now apply set_absent.
Qed.

Lemma fold_add_category_in_order (cats : list category) (d : Dict.t group) :
  NoDup (map snd cats) -> NoDup (Dict.keys d) ->
  (forall c, In c cats -> ~ In (snd c) (Dict.keys d)) ->
  fold_left (add_category fw extra_params params) cats d
  = (d ++ groups_in_order fw extra_params params cats)%list.
Proof.
  revert d. induction cats as [|c cats IH]; intros d NL N F; cbn [fold_left].
  - simpl. now rewrite app_nil_r.
  - inversion NL as [|? ? NI NL']; subst.
    rewrite add_category_fresh; [|exact N|apply F; now left].
    rewrite IH; [rewrite <- app_assoc; f_equal; unfold groups_in_order; simpl;
                 now rewrite app_nil_r|exact NL'| |].
    + rewrite <- add_category_fresh; [|exact N|apply F; now left].
      now apply add_category_nodup.
    + intros c' I' K. rewrite keys_app in K. apply in_app_or in K.
      destruct K as [K|K]; [apply (F c'); [now right|exact K]|].
      apply NI. unfold groups_in_order in K. simpl in K. rewrite app_nil_r in K.
      destruct (group_of_category fw extra_params params c); simpl in K; [|contradiction].
      destruct K as [K|[]]. rewrite K. now apply in_map.
Qed.

(** Categories after which the lookup of [g] is what it was. *)
Lemma get_add_category_other (d : Dict.t group) (c : category) (g : string) :
  NoDup (Dict.keys d) -> snd c <> g ->
  Dict.get g (add_category fw extra_params params d c) = Dict.get g d.
Proof.
  intros N NE. rewrite add_category_eq by exact N.
  destruct (str_eq_marker _ _); [reflexivity|].
  destruct (fill_group extra_params c params).
  - rewrite get_del_other, get_set_other by congruence. reflexivity.
  - rewrite get_set_other by congruence. reflexivity.
Qed.

Lemma get_fold_add_category_other (cats : list category) (d : Dict.t group) (g : string) :
  NoDup (Dict.keys d) -> (forall c, In c cats -> snd c <> g) ->
  Dict.get g (fold_left (add_category fw extra_params params) cats d) = Dict.get g d.
Proof.
  revert d. induction cats as [|c cats IH]; intros d N F; simpl; [reflexivity|].
  rewrite IH.
  - apply get_add_category_other; [exact N|apply F; now left].
  - now apply add_category_nodup.
  - intros c' I'. apply F. now right.
Qed.

(** Every group carries the label of a category that is not skipped. *)
Lemma fold_add_category_keys_shown (cats : list category) (d : Dict.t group) :
  NoDup (Dict.keys d) ->
  (forall k, In k (Dict.keys d) -> str_eq_marker (Str.upper k) (HIDDEN fw) = false) ->
  (forall k, In k (Dict.keys (fold_left (add_category fw extra_params params) cats d)) ->
             str_eq_marker (Str.upper k) (HIDDEN fw) = false)
  /\ NoDup (Dict.keys (fold_left (add_category fw extra_params params) cats d)).
Proof.
  revert d. induction cats as [|c cats IH]; intros d N P; simpl; [now split|].
  apply IH; [now apply add_category_nodup|].
  intros k. rewrite add_category_eq by exact N.
  destruct (str_eq_marker (Str.upper (snd c)) (HIDDEN fw)) eqn:Hid; [apply P|].
  assert (S : forall grp, In k (Dict.keys (Dict.set (snd c) grp d)) ->
                          str_eq_marker (Str.upper k) (HIDDEN fw) = false).
  { intros grp I. apply keys_set in I. destruct I as [->|I]; [exact Hid|now apply P]. }
  destruct (fill_group extra_params c params); [|apply S].
  intros I. apply (S []). unfold Dict.keys in *. apply in_map_iff in I.
  destruct I as (x & E & I). apply in_del in I. apply in_map_iff. now exists x.
Qed.

Lemma get_add_category_same (d : Dict.t group) (c : category) :
  NoDup (Dict.keys d) ->
  (forall k, In k (Dict.keys d) -> str_eq_marker (Str.upper k) (HIDDEN fw) = false) ->
  Dict.get (snd c) (add_category fw extra_params params d c)
  = group_of_category fw extra_params params c.
Proof.
  intros N P. rewrite add_category_eq by exact N.
  unfold group_of_category, shown.
  destruct (str_eq_marker (Str.upper (snd c)) (HIDDEN fw)) eqn:Hid; simpl.
  - apply get_none_iff. intros I. apply P in I. congruence.
  - destruct (fill_group extra_params c params).
    + apply get_del_same.
    + apply get_set_same.
Qed.

(** The names of a category's parameters are keys of its group. *)
Lemma fill_step_keeps_keys (c : category) (l : Dict.t param_spec) (acc : group) (k : string) :
  In k (Dict.keys acc) -> In k (Dict.keys (fold_left (fill_step extra_params c) l acc)).
Proof.
  revert acc. induction l as [|[name [[dflt descr] cat]] l IH]; intros acc I; simpl.
  - exact I.
  - apply IH. destruct (category_eqb cat c); [now apply keys_set_keep|exact I].
Qed.

Lemma fill_step_key (c : category) (l : Dict.t param_spec) (acc : group)
    (name descr : string) (dflt : pyval) :
  In (name, (dflt, descr, c)) l ->
  In (display_name extra_params name)
     (Dict.keys (fold_left (fill_step extra_params c) l acc)).
Proof.
  revert acc. induction l as [|item l IH]; intros acc I; [contradiction|].
  destruct I as [->|I]; [|now apply IH].
  simpl. rewrite category_eqb_refl. apply fill_step_keeps_keys, keys_set_in.
Qed.
End GroupingOrder.

(** X1: when the labels of the categories differ, the groups of the
    overview are those of the categories that are not skipped and have a
    parameter, in the canonical order, each with the parameters of its
    category. *)
Theorem groups_follow_category_order (fw : framework) (easyblock : option string)
    (s : store) :
  NoDup (map snd (sorted_categories fw)) ->
  grouped_params_of fw easyblock s
  = groups_in_order fw (extra_params_for fw easyblock) (working_table fw easyblock s)
      (sorted_categories fw).
Proof.
  intros N. unfold grouped_params_of, group_params.
  rewrite fold_add_category_in_order; [reflexivity|exact N|constructor|].
  intros c _ [].
Qed.

Lemma groups_follow_category_order_witness :
  NoDup (map snd (sorted_categories fw_tuple))
  /\ grouped_params_of fw_tuple (Some "Toy") (store_of name_only)
     = groups_in_order fw_tuple (extra_params_for fw_tuple (Some "Toy"))
         (working_table fw_tuple (Some "Toy") (store_of name_only))
         (sorted_categories fw_tuple).
Proof.
  assert (N : NoDup (map snd (sorted_categories fw_tuple))).
  { simpl. repeat constructor; simpl; intuition discriminate. }
  split; [exact N|].
  exact (groups_follow_category_order fw_tuple (Some "Toy") (store_of name_only) N).
Defined.

(** The lookup of a label after the loop over the categories. *)
Lemma get_group_of_last_category (fw : framework)
    (extra_params params : Dict.t param_spec) (pre post : list category) (c : category) :
  sorted_categories fw = (pre ++ c :: post)%list ->
  (forall c', In c' post -> snd c' <> snd c) ->
  Dict.get (snd c) (group_params fw extra_params params)
  = group_of_category fw extra_params params c.
Proof.
  intros E L. unfold group_params. rewrite E, fold_left_app. cbn [fold_left].
  destruct (fold_add_category_keys_shown fw extra_params params pre [])
    as [P N]; [constructor|intros k []|].
  rewrite get_fold_add_category_other; [|now apply add_category_nodup|exact L].
  now apply get_add_category_same.
Qed.

(** X2: the group under a label is the one of the last category with that
    label: an earlier category with the same label leaves nothing, its
    group is assigned anew (or deleted) when the later one is reached. *)
Theorem last_category_with_label_wins (fw : framework)
    (extra_params params : Dict.t param_spec) (pre post : list category) (c : category) :
  sorted_categories fw = (pre ++ c :: post)%list ->
  (forall c', In c' post -> snd c' <> snd c) ->
  Dict.get (snd c) (group_params fw extra_params params)
  = group_of_category fw extra_params params c.
Proof.
  intros E L. unfold group_params. rewrite E, fold_left_app. cbn [fold_left].
  destruct (fold_add_category_keys_shown fw extra_params params pre [])
    as [P N]; [constructor|intros k []|].
  rewrite get_fold_add_category_other; [|now apply add_category_nodup|exact L].
  now apply get_add_category_same.
Qed.

Lemma last_category_with_label_wins_witness :
  sorted_categories fw_shared_label = ([(3%Z, "build")] ++ (4%Z, "build") :: [])%list
  /\ (forall c' : category, In c' [] -> snd c' <> "build")
  /\ Dict.get "build" (group_params fw_shared_label [] shared_label_table)
     = Some [("buildopts", ("Extra options for make", PStr ""))].
Proof.
  assert (E : sorted_categories fw_shared_label
              = ([(3%Z, "build")] ++ (4%Z, "build") :: [])%list) by reflexivity.
  assert (L : forall c' : category, In c' [] -> snd c' <> "build")
    by (intros c' []).
  split; [exact E|split; [exact L|]].
  exact (last_category_with_label_wins fw_shared_label [] shared_label_table
           [(3%Z, "build")] [] (4%Z, "build") E L).
Defined.

(** X3: when the labels of the categories differ, every parameter of the
    working table whose category is listed and not skipped has an item in
    the group of its category, under the name it is listed with. *)
Theorem listed_parameter_has_item (fw : framework) (easyblock : option string)
    (s : store) (name descr : string) (dflt : pyval) (cat : category) :
  NoDup (map snd (sorted_categories fw)) ->
  In (name, (dflt, descr, cat)) (working_table fw easyblock s) ->
  In cat (sorted_categories fw) ->
  shown fw cat = true ->
  exists grp,
    Dict.get (snd cat) (grouped_params_of fw easyblock s) = Some grp
    /\ In (display_name (extra_params_for fw easyblock) name) (Dict.keys grp).
Proof.
  intros N I L Sh.
  destruct (in_split _ _ L) as (pre & post & E).
  assert (Post : forall c', In c' post -> snd c' <> snd cat).
  { intros c' I' Eq. rewrite E, map_app in N. simpl in N.
    apply NoDup_remove_2 in N. apply N, in_or_app. right.
    rewrite <- Eq. now apply in_map. }
  pose proof (fill_step_key (extra_params_for fw easyblock) cat _ [] _ _ _ I) as K.
  fold (fill_group (extra_params_for fw easyblock) cat (working_table fw easyblock s)) in K.
  exists (fill_group (extra_params_for fw easyblock) cat (working_table fw easyblock s)).
  split; [|exact K].
  unfold grouped_params_of.
  rewrite (get_group_of_last_category fw _ _ pre post cat E Post).
  unfold group_of_category. rewrite Sh.
  destruct (fill_group _ cat _); [contradiction|reflexivity].
Qed.

Lemma listed_parameter_has_item_witness :
  NoDup (map snd (sorted_categories fw_tuple))
  /\ In ("toy_flavour", (PStr "ConfigureMake", "Flavour of the toy", CUSTOM))
        (working_table fw_tuple (Some "Toy") (store_of name_only))
  /\ In CUSTOM (sorted_categories fw_tuple)
  /\ shown fw_tuple CUSTOM = true
  /\ exists grp,
       Dict.get (snd CUSTOM) (grouped_params_of fw_tuple (Some "Toy") (store_of name_only))
       = Some grp
       /\ In (display_name (extra_params_for fw_tuple (Some "Toy")) "toy_flavour")
             (Dict.keys grp).
Proof.
  assert (N : NoDup (map snd (sorted_categories fw_tuple))).
  { simpl. repeat constructor; simpl; intuition discriminate. }
  assert (I : In ("toy_flavour", (PStr "ConfigureMake", "Flavour of the toy", CUSTOM))
                (working_table fw_tuple (Some "Toy") (store_of name_only)))
    by (vm_compute; tauto).
  assert (L : In CUSTOM (sorted_categories fw_tuple)) by (simpl; tauto).
  assert (Sh : shown fw_tuple CUSTOM = true) by reflexivity.
  repeat (split; [assumption|]).
  exact (listed_parameter_has_item fw_tuple (Some "Toy") (store_of name_only)
           _ _ _ _ N I L Sh).
Defined.

(** ** The working table *)

(** X4: in the working table the extra options of the easyblock take the
    place of the defaults of the same name; every other default stays as it
    is, and no name of the default table is lost. *)
Theorem extra_options_override_defaults (fw : framework) (easyblock : option string)
    (s : store) (name : string) :
  NoDup (Dict.keys (extra_params_for fw easyblock)) ->
  Dict.get name (working_table fw easyblock s)
  = match Dict.get name (extra_params_for fw easyblock) with
    | Some spec => Some spec
    | None => Dict.get name (DEFAULT_CONFIG s)
    end
  /\ (In name (Dict.keys (DEFAULT_CONFIG s)) ->
      In name (Dict.keys (working_table fw easyblock s))).
Proof.
  intros N. split.
  - unfold working_table. now apply get_update.
  - apply keys_update_keep.
Qed.

Lemma extra_options_override_defaults_witness :
  NoDup (Dict.keys (extra_params_for fw_tuple (Some "Toy")))
  /\ Dict.get "toy_flavour"
       (working_table fw_tuple (Some "Toy")
          (store_of [("toy_flavour", (PNone, "A default of that name", BUILD10))]))
     = Some (PStr "ConfigureMake", "Flavour of the toy", CUSTOM).
Proof.
  assert (N : NoDup (Dict.keys (extra_params_for fw_tuple (Some "Toy")))).
  { simpl. repeat constructor. simpl. tauto. }
  split; [exact N|].
  exact (proj1 (extra_options_override_defaults fw_tuple (Some "Toy")
                  (store_of [("toy_flavour", (PNone, "A default of that name", BUILD10))])
                  "toy_flavour" N)).
Defined.

(** X5: an easyblock that resolves to a class without extra options gives
    the overview of the defaults under the plain title, as if no easyblock
    were given: the note on the title and the marks depend on the extra
    options, not on the class. *)
Theorem class_without_extra_options (fw : framework) (easyblock : option string)
    (output_format : string) (s : store) (cls : easyblock_class) :
  get_easyblock_class fw easyblock = Some cls ->
  extra_options cls = [] ->
  fst (avail_easyconfig_params fw easyblock output_format s)
  = compose_output fw output_format "Available easyconfig parameters"
      (group_params fw [] (DEFAULT_CONFIG s)).
Proof.
  intros R E. rewrite avail_easyconfig_params_eq. cbn [fst].
  unfold title_of, grouped_params_of, working_table, extra_params_for.
  rewrite R. cbn [extra_params_of]. rewrite E. reflexivity.
Qed.

Lemma class_without_extra_options_witness :
  get_easyblock_class fw_plain (Some "Foo") = Some plain_class
  /\ extra_options plain_class = []
  /\ fst (avail_easyconfig_params fw_plain (Some "Foo") FORMAT_TXT (store_of name_only))
     = compose_output fw_plain FORMAT_TXT "Available easyconfig parameters"
         (group_params fw_plain [] (DEFAULT_CONFIG (store_of name_only))).
Proof.
  assert (R : get_easyblock_class fw_plain (Some "Foo") = Some plain_class) by reflexivity.
  assert (E : extra_options plain_class = []) by reflexivity.
  split; [exact R|split; [exact E|]].
  exact (class_without_extra_options fw_plain (Some "Foo") FORMAT_TXT
           (store_of name_only) plain_class R E).
Defined.

(** A category whose upper-cased label is equal to a [str] [HIDDEN] has no
    group in the overview, whatever parameters it has. *)
Theorem label_equal_to_hidden_has_no_group (fw : framework) (label : string)
    (extra_params params : Dict.t param_spec) (g : string) :
  HIDDEN fw = HiddenLabel label ->
  Str.upper g = label ->
  Dict.get g (group_params fw extra_params params) = None.
Proof.
  intros H U. apply get_none_iff. intros I.
  destruct (fold_add_category_keys_shown fw extra_params params (sorted_categories fw) [])
    as [P _]; [constructor|intros k []|].
  specialize (P g I). rewrite H in P. simpl in P. rewrite U, String.eqb_refl in P.
  discriminate.
Qed.

Lemma label_equal_to_hidden_has_no_group_witness :
  HIDDEN fw_label = HiddenLabel "HIDDEN"
  /\ Str.upper "hidden" = "HIDDEN"
  /\ Dict.get "hidden" (group_params fw_label [] with_secret) = None.
Proof.
  assert (H : HIDDEN fw_label = HiddenLabel "HIDDEN") by reflexivity.
  assert (U : Str.upper "hidden" = "HIDDEN") by reflexivity.
  split; [exact H|split; [exact U|]].
  exact (label_equal_to_hidden_has_no_group fw_label "HIDDEN" [] with_secret "hidden" H U).
Defined.

(** ** The rows of a group *)

Section SortedItems.
Context {V : Type}.
Implicit Types (d l : Dict.t V) (kv : string * V).

Lemma insert_sorted_perm kv l : Permutation (Dict.insert_sorted kv l) (kv :: l).
Proof.
  induction l as [|kv' l IH]; simpl; [apply Permutation_refl|].
  destruct (String.leb (fst kv) (fst kv')); [apply Permutation_refl|].
  apply perm_trans with (kv' :: kv :: l); [now apply perm_skip|apply perm_swap].
Qed.

Lemma sorted_items_perm d : Permutation (Dict.sorted_items d) d.
Proof.
  unfold Dict.sorted_items. induction d as [|kv d IH]; simpl; [constructor|].
  apply perm_trans with (kv :: fold_right Dict.insert_sorted [] d).
  - apply insert_sorted_perm.
  - now apply perm_skip.
Qed.

Lemma insert_sorted_hdrel a kv l :
  name_le a kv -> HdRel name_le a l -> HdRel name_le a (Dict.insert_sorted kv l).
Proof.
  intros Ha H. destruct l as [|kv' l]; simpl.
  - now constructor.
  - destruct (String.leb (fst kv) (fst kv')); constructor; [exact Ha|].
    now inversion H.
Qed.

Lemma insert_sorted_sorted kv l :
  Sorted name_le l -> Sorted name_le (Dict.insert_sorted kv l).
Proof.
  induction l as [|kv' l IH]; simpl; intros S.
  - repeat constructor.
  - inversion S as [|? ? S' H]; subst.
    destruct (String.leb (fst kv) (fst kv')) eqn:E.
    + constructor; [exact S|]. now constructor.
    + constructor; [now apply IH|].
      apply insert_sorted_hdrel; [|exact H].
      unfold name_le. destruct (String.leb_total (fst kv) (fst kv')); congruence.
Qed.

Lemma sorted_items_sorted d : Sorted name_le (Dict.sorted_items d).
Proof.
  unfold Dict.sorted_items. induction d as [|kv d IH]; simpl; [constructor|].
  now apply insert_sorted_sorted.
Qed.

Lemma length_sorted_items d : List.length (Dict.sorted_items d) = List.length d.
Proof. apply Permutation_length, sorted_items_perm. Qed.
End SortedItems.

(** X7: both renderers write the rows of a group in ascending order of the
    parameter name, one row for each item of the group: the lines that
    [rst_group] and [txt_group] append are the fixed lines of the group
    around the rows of a list that is sorted by name and is a permutation
    of the items. *)
Theorem rows_are_sorted_items (fw : framework) (g : string) (grp : group)
    (lines : list string) :
  (exists nw dw dfw rows,
      rst_group fw (g, grp) lines
      = Ok (lines
            +++ [g ++ " parameters";
                 Str.replicate (String.length (g ++ " parameters")) "-";
                 "";
                 line_tmpl nw dw dfw "=" "" "" "";
                 line_tmpl nw dw dfw " " name_title descr_title dflt_title;
                 line_tmpl nw dw dfw "-" "" "" ""]
            +++ map (rst_row fw nw dw dfw) rows
            +++ [line_tmpl nw dw dfw "=" "" "" ""; ""])
      /\ Sorted name_le rows /\ Permutation rows grp)
  /\ (grp <> [] ->
      exists nw rows,
        txt_group fw (g, grp) lines
        = Ok (lines
              +++ [Str.upper g; Str.replicate (String.length (Str.upper g)) "-"]
              +++ map (txt_row fw nw) rows
              +++ [""])
        /\ Sorted name_le rows /\ Permutation rows grp).
Proof.
  split.
  - rewrite rst_group_eq. unfold rst_block.
    do 3 eexists. exists (Dict.sorted_items grp).
    split; [reflexivity|split; [apply sorted_items_sorted|apply sorted_items_perm]].
  - intros NE. rewrite txt_group_eq by exact NE. unfold txt_block.
    eexists. exists (Dict.sorted_items grp).
    split; [reflexivity|split; [apply sorted_items_sorted|apply sorted_items_perm]].
Qed.

(** ** What the renderers return *)

Lemma for_lines_err {A : Type} (body : A -> list string -> result (list string))
    (l : list A) (e : exn) :
  (forall x lines, (exists lines', body x lines = Ok lines') \/ body x lines = Err e) ->
  (exists x, In x l /\ forall lines, body x lines = Err e) ->
  forall lines, for_lines body l lines = Err e.
Proof.
  intros Total. induction l as [|a l IH]; intros (x & I & F) lines; [contradiction|].
  simpl. destruct (Total a lines) as [(lines' & E)|E]; rewrite E; simpl; [|reflexivity].
  destruct I as [->|I]; [rewrite F in E; discriminate|].
  apply IH. now exists x.
Qed.

Lemma txt_group_cases (fw : framework) (item : string * group) (lines : list string) :
  (exists lines', txt_group fw item lines = Ok lines')
  \/ txt_group fw item lines = Err (ValueError "max() arg is an empty sequence").
Proof.
  destruct item as [g [|x grp]]; [now right|left].
  unfold txt_group.
  destruct (py_max_spec (map String.length (Dict.keys (x :: grp)))) as (m & -> & _);
    [discriminate|].
  simpl. eauto.
Qed.

(** X8: the plain-text renderer raises the [ValueError] of [max] as soon as
    one group has no parameter, and returns a text otherwise; the rst
    renderer returns a text for every grouping, a group without parameters
    is an empty table there. *)
Theorem renderers_on_empty_groups (fw : framework) (title : string)
    (grouped_params : Dict.t group) :
  (all_nonempty grouped_params ->
   exists out, avail_easyconfig_params_txt fw title grouped_params = Ok out)
  /\ (forall g, In (g, []) grouped_params ->
        avail_easyconfig_params_txt fw title grouped_params
        = Err (ValueError "max() arg is an empty sequence"))
  /\ (exists out, avail_easyconfig_params_rst fw title grouped_params = Ok out).
Proof.
  split; [apply avail_easyconfig_params_txt_ok|split].
  - intros g I. unfold avail_easyconfig_params_txt.
    rewrite (for_lines_err (txt_group fw) grouped_params
               (ValueError "max() arg is an empty sequence")); [reflexivity| |].
    + apply txt_group_cases.
    + exists (g, []). split; [exact I|reflexivity].
  - apply avail_easyconfig_params_rst_ok.
Qed.

Lemma rst_widths_titles (fw : framework) (grp : group) (nw dw dfw : nat) :
  rst_widths fw grp = Ok (nw, dw, dfw) ->
  String.length name_title + 4 <= nw
  /\ String.length descr_title <= dw
  /\ String.length dflt_title <= dfw.
Proof.
  unfold rst_widths. intros W.
  destruct (det_col_width (Dict.keys grp) name_title) as [w1|] eqn:E1; [|discriminate].
  destruct (det_col_width (map fst (Dict.values grp)) descr_title) as [w2|] eqn:E2;
    [|discriminate].
  destruct (det_col_width (map _ (Dict.values grp)) dflt_title) as [w3|] eqn:E3;
    [|discriminate].
  simpl in W. injection W as <- <- <-.
  apply det_col_width_bounds in E1, E2, E3.
  destruct E1 as [B1 _], E2 as [B2 _], E3 as [B3 _]. lia.
Qed.

(** X9: the table that [avail_easyconfig_params_rst] writes for a group is
    rectangular: the two border lines, the header, the separator and every
    row have the same length, the sum of the three column widths and the two
    gaps of three characters; the columns are at least as wide as their
    titles (plus the four backticks for the name). *)
Theorem rst_table_is_rectangular (fw : framework) (g : string) (grp : group)
    (lines : list string) :
  exists nw dw dfw table,
    rst_widths fw grp = Ok (nw, dw, dfw)
    /\ table
       = [line_tmpl nw dw dfw "=" "" "" "";
          line_tmpl nw dw dfw " " name_title descr_title dflt_title;
          line_tmpl nw dw dfw "-" "" "" ""]
         +++ map (rst_row fw nw dw dfw) (Dict.sorted_items grp)
         +++ [line_tmpl nw dw dfw "=" "" "" ""]
    /\ rst_group fw (g, grp) lines
       = Ok (lines
             +++ [g ++ " parameters";
                  Str.replicate (String.length (g ++ " parameters")) "-"; ""]
             +++ table +++ [""])
    /\ all_of_length (nw + 3 + dw + 3 + dfw) table
    /\ 22 <= nw /\ 15 <= dw /\ 17 <= dfw.
Proof.
  destruct (rst_widths_ok fw grp) as ([[nw dw] dfw] & W).
  exists nw, dw, dfw. eexists. split; [exact W|split; [reflexivity|]].
  pose proof (rst_widths_titles fw grp nw dw dfw W) as (T1 & T2 & T3).
  assert (Border : forall c, String.length (line_tmpl nw dw dfw c "" "" "")
                             = nw + 3 + dw + 3 + dfw).
  { intros c. apply length_line_tmpl; simpl; lia. }
  split; [|split].
  - unfold rst_group. rewrite W. cbn [rbind]. f_equal.
    repeat rewrite <- app_assoc. reflexivity.
  - intros line I. apply in_app_or in I. destruct I as [I|I].
    + destruct I as [<-|[<-|[<-|[]]]]; [apply Border| |apply Border].
      apply length_line_tmpl; simpl in *; lia.
    + apply in_app_or in I. destruct I as [I|[<-|[]]]; [|apply Border].
      apply in_map_iff in I. destruct I as ([name [descr dflt]] & <- & I).
      destruct (rst_cells_fit fw grp nw dw dfw W name descr dflt I) as (_ & _ & _ & L).
      rewrite L. apply Border.
  - simpl in T1, T2, T3. lia.
Qed.

(** X10: in the plain-text overview the names of a group are padded to
    the length of the longest name of the group, so that the descriptions of
    the group start in one column. *)
Theorem txt_names_are_padded (fw : framework) (g : string) (grp : group)
    (lines : list string) :
  grp <> [] ->
  exists nw,
    py_max (map String.length (Dict.keys grp)) = Ok nw
    /\ txt_group fw (g, grp) lines
       = Ok (lines
             +++ [Str.upper g; Str.replicate (String.length (Str.upper g)) "-"]
             +++ map (txt_row fw nw) (Dict.sorted_items grp) +++ [""])
    /\ (exists name, In name (Dict.keys grp) /\ String.length name = nw)
    /\ forall name descr dflt,
         In (name, (descr, dflt)) grp ->
         String.length (Str.ljust " " nw name) = nw
         /\ txt_row fw nw (name, (descr, dflt))
            = Str.ljust " " nw name ++ "   " ++ descr
              ++ " [default: " ++ py_str (quote_str fw dflt) ++ "]".
Proof.
  intros NE.
  destruct (py_max_spec (map String.length (Dict.keys grp))) as (nw & E & A & B).
  { destruct grp; [congruence|discriminate]. }
  exists nw. split; [exact E|split; [|split]].
  - unfold txt_group. rewrite E. cbn [rbind]. f_equal.
    repeat rewrite <- app_assoc. reflexivity.
  - apply in_map_iff in A. destruct A as (name & L & I). now exists name.
  - intros name descr dflt I. split; [|reflexivity].
    rewrite length_ljust.
    assert (String.length name <= nw).
    { apply B. apply in_map. unfold Dict.keys. apply in_map_iff.
      now exists (name, (descr, dflt)). }
    lia.
Qed.

Lemma txt_names_are_padded_witness :
  let grp := [("name", ("Name of software", PNone)); ("version", ("Its version", PNone))] in
  grp <> []
  /\ exists nw,
       py_max (map String.length (Dict.keys grp)) = Ok nw
       /\ txt_group fw_tuple ("mandatory", grp) []
          = Ok ([]
                +++ [Str.upper "mandatory";
                     Str.replicate (String.length (Str.upper "mandatory")) "-"]
                +++ map (txt_row fw_tuple nw) (Dict.sorted_items grp) +++ [""])
       /\ (exists name, In name (Dict.keys grp) /\ String.length name = nw)
       /\ forall name descr dflt,
            In (name, (descr, dflt)) grp ->
            String.length (Str.ljust " " nw name) = nw
            /\ txt_row fw_tuple nw (name, (descr, dflt))
               = Str.ljust " " nw name ++ "   " ++ descr
                 ++ " [default: " ++ py_str (quote_str fw_tuple dflt) ++ "]".
Proof.
  intros grp.
  assert (NE : grp <> []) by discriminate.
  split; [exact NE|].
  exact (txt_names_are_padded fw_tuple "mandatory" grp [] NE).
Defined.

(** ** The lines of the two texts *)

(** X11: the overview, line by line.  The rst text is the join by newlines
    of the title, its underline and an empty line, followed for each group,
    in the order of the grouping, by the 8 fixed lines of its table around
    one row per parameter; the plain text is the join of the title and an
    empty line, followed for each group by its heading, the underline, one
    row per parameter and an empty line. *)
Theorem overview_line_counts (fw : framework) (title : string)
    (grouped_params : Dict.t group) :
  avail_easyconfig_params_rst fw title grouped_params
  = Ok (Str.join Str.nl
          ([title; Str.replicate (String.length title) "="; ""]
           +++ flat_map (rst_block fw) grouped_params))
  /\ (all_nonempty grouped_params ->
      avail_easyconfig_params_txt fw title grouped_params
      = Ok (Str.join Str.nl
              ([title ++ ":"; ""] +++ flat_map (txt_block fw) grouped_params)))
  /\ (forall g grp,
        exists nw dw dfw,
          rst_block fw (g, grp)
          = [g ++ " parameters";
             Str.replicate (String.length (g ++ " parameters")) "-";
             "";
             line_tmpl nw dw dfw "=" "" "" "";
             line_tmpl nw dw dfw " " name_title descr_title dflt_title;
             line_tmpl nw dw dfw "-" "" "" ""]
            +++ map (rst_row fw nw dw dfw) (Dict.sorted_items grp)
            +++ [line_tmpl nw dw dfw "=" "" "" ""; ""]
          /\ List.length (map (rst_row fw nw dw dfw) (Dict.sorted_items grp))
             = List.length grp
          /\ List.length (rst_block fw (g, grp)) = 8 + List.length grp)
  /\ (forall g grp,
        exists nw,
          txt_block fw (g, grp)
          = [Str.upper g; Str.replicate (String.length (Str.upper g)) "-"]
            +++ map (txt_row fw nw) (Dict.sorted_items grp)
            +++ [""]
          /\ List.length (map (txt_row fw nw) (Dict.sorted_items grp)) = List.length grp
          /\ List.length (txt_block fw (g, grp)) = 3 + List.length grp).
Proof.
  split; [apply avail_easyconfig_params_rst_eq|].
  split; [apply avail_easyconfig_params_txt_eq|].
  split.
  - intros g grp. unfold rst_block. do 3 eexists.
    split; [reflexivity|].
    rewrite length_map, length_sorted_items. split; [reflexivity|].
    cbn [List.length app]. rewrite length_app, length_map, length_sorted_items.
    simpl. lia.
  - intros g grp. unfold txt_block. eexists.
    split; [reflexivity|].
    rewrite length_map, length_sorted_items. split; [reflexivity|].
    cbn [List.length app]. rewrite length_app, length_map, length_sorted_items.
    simpl. lia.
Qed.

(** ** doc_easyblock *)

Lemma ex_opt_widths_ok (ex_opt : Dict.t param_spec) : exists w, ex_opt_widths ex_opt = Ok w.
Proof.
  unfold ex_opt_widths.
  destruct (det_col_width_spec (Dict.keys ex_opt) ectitle) as (w1 & -> & _).
  destruct (det_col_width_spec (map (fun val => snd (fst val)) (Dict.values ex_opt)) desctitle)
    as (w2 & -> & _).
  destruct (det_col_width_spec
              (map (fun val => py_str (fst (fst val))) (Dict.values ex_opt)) dftitle)
    as (w3 & -> & _).
  simpl. eauto.
Qed.

Lemma ex_opt_table_ok (fw : framework) (classname : string) (ex_opt : Dict.t param_spec)
    (lines : list string) :
  exists lines', ex_opt_table fw classname ex_opt lines = Ok lines'.
Proof.
  unfold ex_opt_table. destruct (Dict.nonempty ex_opt); [|eauto].
  destruct (ex_opt_widths_ok ex_opt) as ([[nw dw] dfw] & ->). simpl. eauto.
Qed.

(** The loop over the commonly used parameters: it ends at the first one
    that the default table does not have. *)
Lemma common_param_lines_ok (s : store) (opts : list string) (lines : list string) :
  (forall opt, In opt opts -> In opt (Dict.keys (DEFAULT_CONFIG s))) ->
  exists lines', for_lines (common_param_line s) opts lines = Ok lines'.
Proof.
  revert lines. induction opts as [|opt opts IH]; intros lines H; simpl; [eauto|].
  unfold common_param_line at 1.
  destruct (Dict.get opt (DEFAULT_CONFIG s)) as [[[dflt descr] cat]|] eqn:E.
  - simpl. apply IH. intros o I. apply H. now right.
  - apply get_none_iff in E. elim E. apply H. now left.
Qed.

Lemma common_param_lines_err (s : store) (pre post : list string) (opt : string)
    (lines : list string) :
  (forall o, In o pre -> In o (Dict.keys (DEFAULT_CONFIG s))) ->
  ~ In opt (Dict.keys (DEFAULT_CONFIG s)) ->
  for_lines (common_param_line s) (pre ++ opt :: post)%list lines = Err (KeyError opt).
Proof.
  revert lines. induction pre as [|o pre IH]; intros lines H N; simpl.
  - unfold common_param_line.
    replace (Dict.get opt (DEFAULT_CONFIG s)) with (@None param_spec)
      by (symmetry; now apply get_none_iff).
    reflexivity.
  - unfold common_param_line at 1.
    destruct (Dict.get o (DEFAULT_CONFIG s)) as [[[dflt descr] cat]|] eqn:E.
    + simpl. apply IH; [|exact N]. intros x I. apply H. now right.
    + apply get_none_iff in E. elim E. apply H. now left.
Qed.

Lemma first_missing (keys opts : list string) :
  (forall opt, In opt opts -> In opt keys)
  \/ exists pre opt post,
       opts = (pre ++ opt :: post)%list
       /\ (forall o, In o pre -> In o keys) /\ ~ In opt keys.
Proof.
  induction opts as [|o opts IH]; [left; intros opt []|].
  destruct (in_dec string_dec o keys) as [I|N].
  - destruct IH as [A|(pre & opt & post & -> & P & M)].
    + left. intros opt [<-|J]; auto.
    + right. exists (o :: pre), opt, post. repeat split; auto.
      intros x [<-|J]; auto.
  - right. exists [], o, opts. repeat split; auto. intros x [].
Qed.

Lemma commonly_used_params_eq (s : store) (classname : string) (lines : list string) :
  commonly_used_params s classname lines
  = match common_params_of classname with
    | [] => match Dict.get classname common_params with
            | Some _ =>
                Ok (lines +++
                    ["Commonly used easyconfig parameters with ``" ++ classname ++ "`` easyblock";
                     Str.replicate
                       (String.length
                          ("Commonly used easyconfig parameters with ``" ++ classname
                           ++ "`` easyblock")) "-"])
            | None => Ok lines
            end
    | opts =>
        for_lines (common_param_line s) opts
          (lines +++
           ["Commonly used easyconfig parameters with ``" ++ classname ++ "`` easyblock";
            Str.replicate
              (String.length
                 ("Commonly used easyconfig parameters with ``" ++ classname
                  ++ "`` easyblock")) "-"])
    end.
Proof.
  unfold commonly_used_params, common_params_of.
  destruct (Dict.get classname common_params) as [[|o opts]|]; reflexivity.
Qed.

(** The commonly used parameters, for a class that has them all or lacks
    one. *)
Lemma commonly_used_params_cases (s : store) (classname : string) (lines : list string) :
  ((forall opt, In opt (common_params_of classname) ->
                In opt (Dict.keys (DEFAULT_CONFIG s)))
   /\ exists lines', commonly_used_params s classname lines = Ok lines')
  \/ exists pre opt post,
       common_params_of classname = (pre ++ opt :: post)%list
       /\ (forall o, In o pre -> In o (Dict.keys (DEFAULT_CONFIG s)))
       /\ ~ In opt (Dict.keys (DEFAULT_CONFIG s))
       /\ commonly_used_params s classname lines = Err (KeyError opt).
Proof.
  rewrite commonly_used_params_eq.
  destruct (first_missing (Dict.keys (DEFAULT_CONFIG s)) (common_params_of classname))
    as [A|(pre & opt & post & E & P & M)].
  - left. split; [exact A|].
    destruct (common_params_of classname) as [|o opts] eqn:C.
    + destruct (Dict.get classname common_params); eauto.
    + apply common_param_lines_ok. exact A.
  - right. exists pre, opt, post. repeat split; try assumption.
    rewrite E. destruct (pre ++ opt :: post)%list as [|o opts] eqn:C.
    { destruct pre; discriminate. }
    rewrite <- C. now apply common_param_lines_err.
Qed.

(** The example block returns unless the directory cannot be listed or the
    file of the class is listed and cannot be opened. *)
Lemma example_block_returns_iff (fw : framework) (classname : string) (lines : list string) :
  (exists lines', example_block fw classname lines = Ok lines')
  <-> exists listing,
        doc_examples fw = Some listing
        /\ Dict.get (classname ++ ".eb") listing <> Some None.
Proof.
  unfold example_block. destruct (doc_examples fw) as [listing|].
  - destruct (Dict.get (classname ++ ".eb") listing) as [[content|]|] eqn:G.
    + split; [intros _; exists listing; split; [reflexivity|congruence]|eauto].
    + split; [intros (l & E); discriminate|].
      intros (l & E & N). injection E as <-. congruence.
    + split; [intros _; exists listing; split; [reflexivity|congruence]|eauto].
  - split; [intros (l & E); discriminate|intros (l & E & _); discriminate].
Qed.

(** X12: [doc_easyblock] returns a text exactly when the class has a
    docstring, the default table has every commonly used parameter listed
    for the name of the class, the directory [doc_examples] can be listed
    and the example file of the class, if listed, can be opened; the extra
    options never make it fail. *)
Theorem doc_easyblock_returns_iff (fw : framework) (cls : easyblock_class) (s : store) :
  (exists out, doc_easyblock fw cls s = Ok out)
  <-> class_doc cls <> None
      /\ (forall opt, In opt (common_params_of (class_name cls)) ->
                      In opt (Dict.keys (DEFAULT_CONFIG s)))
      /\ exists listing,
           doc_examples fw = Some listing
           /\ Dict.get (class_name cls ++ ".eb") listing <> Some None.
Proof.
  unfold doc_easyblock. destruct (class_doc cls) as [doc|].
  2:{ split; [intros (out & E); discriminate|intros [N _]; now elim N]. }
  match goal with
  | |- context [ex_opt_table fw ?c ?e ?l] =>
      destruct (ex_opt_table_ok fw c e l) as (lines1 & ->)
  end.
  cbn [rbind].
  destruct (commonly_used_params_cases s (class_name cls) lines1)
    as [[A (lines2 & ->)]|(pre & opt & post & E & P & M & ->)]; cbn [rbind].
  - rewrite <- (example_block_returns_iff fw (class_name cls) lines2).
    split.
    + intros (out & O). split; [discriminate|split; [exact A|]].
      destruct (example_block fw (class_name cls) lines2); [eauto|discriminate].
    + intros (_ & _ & lines3 & ->). cbn [rbind]. eauto.
  - split; [intros (out & O); discriminate|].
    intros (_ & A & _). elim M. apply A. rewrite E. apply in_or_app. right. now left.
Qed.

(** Without the directory the call ends in the [OSError] of [os.listdir];
    an entry that cannot be opened gives the [IOError] of [open]; a file
    that can be read is shown, each line stripped and indented. *)
Example doc_easyblock_without_directory :
  doc_easyblock fw_without_directory plain_class (store_of name_only)
  = Err (OSError "doc_examples").
Proof. reflexivity. Qed.

Example doc_easyblock_unreadable_example :
  doc_easyblock fw_with_examples example_class (store_of name_only)
  = Err (IOError "Toy.eb").
Proof. reflexivity. Qed.

Example doc_easyblock_with_example :
  doc_easyblock fw_with_examples plain_class (store_of name_only)
  = Ok (Str.join Str.nl
          ["``Foo``"; "======="; ""; "(derives from ``EasyBlock``)"; "";
           "Builds Foo."; "";
           ""; "Example"; "--------"; ""; "::"; "";
           "    name = 'foo'"; "    version = '1.0'"; ""]).
Proof. vm_compute. reflexivity. Qed.

(** X13: the exception of [doc_easyblock].  Without docstring it is the
    [AttributeError] of [__doc__.strip()], whatever the rest of the class;
    with a docstring it is the [KeyError] of the first commonly used
    parameter that the default table lacks. *)
Theorem doc_easyblock_exception (fw : framework) (cls : easyblock_class) (s : store)
    (pre post : list string) (opt : string) :
  common_params_of (class_name cls) = (pre ++ opt :: post)%list ->
  (forall o, In o pre -> In o (Dict.keys (DEFAULT_CONFIG s))) ->
  ~ In opt (Dict.keys (DEFAULT_CONFIG s)) ->
  doc_easyblock fw cls s
  = match class_doc cls with
    | None => Err (AttributeError "'NoneType' object has no attribute 'strip'")
    | Some _ => Err (KeyError opt)
    end.
Proof.
  intros E P M. unfold doc_easyblock. destruct (class_doc cls) as [doc|]; [|reflexivity].
  match goal with
  | |- context [ex_opt_table fw ?c ?e ?l] =>
      destruct (ex_opt_table_ok fw c e l) as (lines1 & ->)
  end.
  cbn [rbind]. rewrite commonly_used_params_eq, E.
  destruct (pre ++ opt :: post)%list as [|o opts] eqn:C.
  { destruct pre; discriminate. }
  rewrite <- C. rewrite common_param_lines_err by assumption. reflexivity.
Qed.

Lemma doc_easyblock_exception_witness :
  common_params_of (class_name configure_make_class)
  = (["configopts"] ++ "buildopts" :: ["installopts"])%list
  /\ (forall o, In o ["configopts"] ->
                In o (Dict.keys (DEFAULT_CONFIG (store_of without_buildopts))))
  /\ ~ In "buildopts" (Dict.keys (DEFAULT_CONFIG (store_of without_buildopts)))
  /\ doc_easyblock fw_tuple configure_make_class (store_of without_buildopts)
     = Err (KeyError "buildopts").
Proof.
  assert (E : common_params_of (class_name configure_make_class)
              = (["configopts"] ++ "buildopts" :: ["installopts"])%list) by reflexivity.
  assert (P : forall o, In o ["configopts"] ->
                        In o (Dict.keys (DEFAULT_CONFIG (store_of without_buildopts)))).
  { intros o [<-|[]]. simpl. tauto. }
  assert (M : ~ In "buildopts" (Dict.keys (DEFAULT_CONFIG (store_of without_buildopts)))).
  { simpl. intros [H|[H|[]]]; discriminate. }
  split; [exact E|split; [exact P|split; [exact M|]]].
  exact (doc_easyblock_exception fw_tuple configure_make_class (store_of without_buildopts)
           ["configopts"] ["installopts"] "buildopts" E P M).
Defined.

(** X14: for a class with a docstring, without extra options, whose name
    has no commonly used parameters and whose example file is not in the
    listing of [doc_examples], the text is the title, underlined over its
    whole length, the line of the base classes and the stripped docstring,
    and nothing else. *)
Theorem doc_easyblock_plain_class (fw : framework) (cls : easyblock_class) (s : store)
    (doc : string) (listing : Dict.t (option string)) :
  class_doc cls = Some doc ->
  extra_options cls = [] ->
  Dict.get (class_name cls) common_params = None ->
  doc_examples fw = Some listing ->
  Dict.get (class_name cls ++ ".eb") listing = None ->
  doc_easyblock fw cls s = Ok (Str.join Str.nl (doc_head cls doc))
  /\ String.length (Str.replicate (String.length (class_name cls) + 4) "=")
     = String.length ("``" ++ class_name cls ++ "``").
Proof.
  intros D E C L X. split.
  - unfold doc_easyblock, ex_opt_table, commonly_used_params, example_block.
    rewrite D, E, C, L. cbn [Dict.nonempty rbind]. rewrite X. reflexivity.
  - rewrite length_replicate, !length_append. simpl. lia.
Qed.

Lemma doc_easyblock_plain_class_witness :
  class_doc plain_class = Some "Builds Foo."
  /\ extra_options plain_class = []
  /\ Dict.get (class_name plain_class) common_params = None
  /\ doc_examples fw_tuple = Some []
  /\ Dict.get (class_name plain_class ++ ".eb") [] = @None (option string)
  /\ doc_easyblock fw_tuple plain_class (store_of name_only)
     = Ok (Str.join Str.nl
             ["``Foo``"; "======="; ""; "(derives from ``EasyBlock``)"; "";
              "Builds Foo."; ""]).
Proof.
  assert (D : class_doc plain_class = Some "Builds Foo.") by reflexivity.
  assert (E : extra_options plain_class = []) by reflexivity.
  assert (C : Dict.get (class_name plain_class) common_params = None) by reflexivity.
  assert (L : doc_examples fw_tuple = Some []) by reflexivity.
  assert (X : Dict.get (class_name plain_class ++ ".eb") [] = @None (option string))
    by reflexivity.
  repeat (split; [assumption|]).
  exact (proj1 (doc_easyblock_plain_class fw_tuple plain_class (store_of name_only)
                  "Builds Foo." [] D E C L X)).
Defined.

(** X15: in the table of extra options of [doc_easyblock] the name and the
    description of every row fit their columns, and so does the default
    value when [quote_str] leaves its text as it is (a default that is not a
    string): such a row has the length of the table line. *)
Theorem ex_opt_table_cells (fw : framework) (ex_opt : Dict.t param_spec)
    (nw dw dfw : nat) (key descr : string) (dflt : pyval) (cat : category) :
  ex_opt_widths ex_opt = Ok (nw, dw, dfw) ->
  In (key, (dflt, descr, cat)) ex_opt ->
  String.length ("``" ++ key ++ "``") <= nw
  /\ String.length descr <= dw
  /\ (py_str (quote_str fw dflt) = py_str dflt ->
      String.length ("``" ++ py_str (quote_str fw dflt) ++ "``") <= dfw
      /\ String.length (ex_opt_row fw nw dw dfw (key, (dflt, descr, cat)))
         = String.length (line_tmpl nw dw dfw "=" "" "" "")).
Proof.
  unfold ex_opt_widths. intros W I.
  destruct (det_col_width (Dict.keys ex_opt) ectitle) as [w1|] eqn:E1; [|discriminate].
  match type of W with
  | context [det_col_width ?a desctitle] =>
      destruct (det_col_width a desctitle) as [w2|] eqn:E2; [|discriminate]
  end.
  match type of W with
  | context [det_col_width ?a dftitle] =>
      destruct (det_col_width a dftitle) as [w3|] eqn:E3; [|discriminate]
  end.
  simpl in W. injection W as <- <- <-.
  apply det_col_width_bounds in E1, E2, E3.
  destruct E1 as [_ B1], E2 as [_ B2], E3 as [_ B3].
  assert (L1 : String.length key <= w1).
  { apply B1. unfold Dict.keys. apply in_map_iff. now exists (key, (dflt, descr, cat)). }
  assert (L2 : String.length descr <= w2).
  { apply B2. unfold Dict.values. rewrite map_map. apply in_map_iff.
    now exists (key, (dflt, descr, cat)). }
  assert (L3 : String.length (py_str dflt) <= w3).
  { apply B3. unfold Dict.values. rewrite map_map. apply in_map_iff.
    now exists (key, (dflt, descr, cat)). }
  assert (L1' : String.length ("``" ++ key ++ "``") <= w1 + 4).
  { rewrite !length_append. simpl. lia. }
  split; [exact L1'|split; [exact L2|]].
  intros Q.
  assert (L3' : String.length ("``" ++ py_str (quote_str fw dflt) ++ "``") <= w3 + 4).
  { rewrite Q, !length_append. simpl. lia. }
  split; [exact L3'|].
  unfold ex_opt_row. rewrite !length_line_tmpl; simpl; auto with arith.
Qed.

Lemma ex_opt_table_cells_witness :
  ex_opt_widths (extra_options int_option_class) = Ok (24, 26, 17)
  /\ In ("maxparallel", (PInt 16, "Upper bound on parallelism", CUSTOM))
        (extra_options int_option_class)
  /\ String.length ("``" ++ "maxparallel" ++ "``") <= 24
  /\ String.length "Upper bound on parallelism" <= 26
  /\ (py_str (quote_str fw_tuple (PInt 16)) = py_str (PInt 16) ->
      String.length ("``" ++ py_str (quote_str fw_tuple (PInt 16)) ++ "``") <= 17
      /\ String.length
           (ex_opt_row fw_tuple 24 26 17
              ("maxparallel", (PInt 16, "Upper bound on parallelism", CUSTOM)))
         = String.length (line_tmpl 24 26 17 "=" "" "" "")).
Proof.
  assert (W : ex_opt_widths (extra_options int_option_class) = Ok (24, 26, 17))
    by reflexivity.
  assert (I : In ("maxparallel", (PInt 16, "Upper bound on parallelism", CUSTOM))
                (extra_options int_option_class)) by (simpl; tauto).
  split; [exact W|split; [exact I|]].
  exact (ex_opt_table_cells fw_tuple (extra_options int_option_class) 24 26 17
           "maxparallel" "Upper bound on parallelism" (PInt 16) CUSTOM W I).
Defined.

(** ** generic_easyblocks *)

Lemma for_each_app {A S : Type} (body : A -> S -> result S) (l1 l2 : list A) (st : S) :
  for_each body (l1 ++ l2)%list st = (st' <- for_each body l1 st ;; for_each body l2 st').
Proof.
  revert st. induction l1 as [|x l1 IH]; intros st; simpl; [reflexivity|].
  destruct (body x st); simpl; [apply IH|reflexivity].
Qed.

Lemma for_each_concat {A S : Type} (body : A -> S -> result S) (ls : list (list A)) (st : S) :
  for_each (fun l st => for_each body l st) ls st = for_each body (concat ls) st.
Proof.
  revert st. induction ls as [|l ls IH]; intros st; simpl; [reflexivity|].
  rewrite for_each_app. destruct (for_each body l st); simpl; [apply IH|reflexivity].
Qed.


(** The loop over the members, in terms of the classes it documents. *)
Lemma for_each_document_member (fw : framework) (s : store)
    (members : list (string * class_object)) (docs seen : list string) :
  for_each (document_member fw s) members (docs, seen)
  = (ys <- map_result (fun member => doc_easyblock fw (class_of (snd member)) s)
             (first_occurrences seen members) ;;
     Ok (docs +++ ys, seen +++ map fst (first_occurrences seen members))).
Proof.
  revert docs seen. induction members as [|[name cls] members IH]; intros docs seen.
  - simpl. now rewrite !app_nil_r.
  - cbn [for_each first_occurrences]. unfold document_member at 1, defined_in_generic.
    cbn [fst snd].
    destruct (String.prefix GENERIC_NAMESPACE (class_module cls)
              && negb (existsb (String.eqb name) seen)).
    + cbn [map_result map fst snd].
      destruct (doc_easyblock fw (class_of cls) s) as [doc|e]; cbn [rbind];
        [|reflexivity].
      rewrite IH.
      destruct (map_result _ (first_occurrences (seen +++ [name]) members)); cbn [rbind];
        [|reflexivity].
      now rewrite <- !app_assoc.
    + cbn [rbind]. apply IH.
Qed.


(** X16: [generic_easyblocks] documents the classes that are defined in the
    generic namespace, each name at its first occurrence in the order of
    discovery; it ends with the exception of the first of these classes that
    [doc_easyblock] fails on.  Classes imported into the namespace and names
    met before are passed over, whatever [doc_easyblock] would do on them. *)
Theorem generic_easyblocks_documents_first_occurrences (fw : framework)
    (modules : list py_module) (s : store) :
  generic_easyblocks fw modules s
  = map_result (fun member => doc_easyblock fw (class_of (snd member)) s)
      (first_occurrences [] (concat modules)).
Proof.
  unfold generic_easyblocks.
  rewrite for_each_concat, for_each_document_member.
  destruct (map_result _ (first_occurrences [] (concat modules))) as [docs|e].
  - reflexivity.
  - reflexivity.
Qed.




(** ** Names and labels are listed once *)

Lemma fill_step_nodup (extra_params : Dict.t param_spec) (c : category)
    (l : Dict.t param_spec) (acc : group) :
  NoDup (Dict.keys acc) -> NoDup (Dict.keys (fold_left (fill_step extra_params c) l acc)).
Proof.
  revert acc. induction l as [|[name [[dflt descr] cat]] l IH]; intros acc N; simpl.
  - exact N.
  - apply IH. destruct (category_eqb cat c); [now apply nodup_set|exact N].
Qed.

(** X6: the overview lists no label twice and, within a group, no name
    twice. *)
Theorem overview_has_no_duplicates (fw : framework) (easyblock : option string)
    (s : store) :
  NoDup (Dict.keys (grouped_params_of fw easyblock s))
  /\ forall g grp, In (g, grp) (grouped_params_of fw easyblock s) -> NoDup (Dict.keys grp).
Proof.
  split; [apply group_params_nodup|].
  unfold grouped_params_of. apply group_params_ind.
  - intros g grp [].
  - intros d c _ N IH g grp. rewrite add_category_eq by exact N.
    destruct (str_eq_marker _ _); [apply IH|].
    pose proof (fill_step_nodup (extra_params_for fw easyblock) c
                  (working_table fw easyblock s) [] (NoDup_nil _)) as F.
    fold (fill_group (extra_params_for fw easyblock) c (working_table fw easyblock s)) in F.
    destruct (fill_group (extra_params_for fw easyblock) c (working_table fw easyblock s))
      as [|x grp'].
    + intros H. apply in_del, in_set in H. destruct H as [E|H]; [|now apply (IH g)].
      injection E as _ ->. constructor.
    + intros H. apply in_set in H. destruct H as [E|H]; [|now apply (IH g)].
      injection E as _ ->. exact F.
Qed.

(** ** The hidden category, bound to a category *)

(** X18: when [HIDDEN] is the hidden category itself and the labels of the
    categories differ, every parameter of the hidden category has an item in
    a group labelled with the label of that category: the test of the
    aggregator does not keep it out. *)
Theorem hidden_category_parameter_has_item (fw : framework) (easyblock : option string)
    (s : store) (h : category) (name descr : string) (dflt : pyval) :
  HIDDEN fw = HiddenCategory h ->
  NoDup (map snd (sorted_categories fw)) ->
  In h (sorted_categories fw) ->
  In (name, (dflt, descr, h)) (working_table fw easyblock s) ->
  is_hidden (HIDDEN fw) h = true
  /\ exists grp,
       Dict.get (snd h) (grouped_params_of fw easyblock s) = Some grp
       /\ In (display_name (extra_params_for fw easyblock) name) (Dict.keys grp).
Proof.
  intros H N L I. split.
  - rewrite H. simpl. apply category_eqb_refl.
  - destruct (in_split _ _ L) as (pre & post & E).
    assert (Post : forall c', In c' post -> snd c' <> snd h).
    { intros c' I' Eq. rewrite E, map_app in N. simpl in N.
      apply NoDup_remove_2 in N. apply N, in_or_app. right.
      rewrite <- Eq. now apply in_map. }
    pose proof (fill_step_key (extra_params_for fw easyblock) h _ [] _ _ _ I) as K.
    fold (fill_group (extra_params_for fw easyblock) h (working_table fw easyblock s)) in K.
    exists (fill_group (extra_params_for fw easyblock) h (working_table fw easyblock s)).
    split; [|exact K].
    unfold grouped_params_of.
    rewrite (get_group_of_last_category fw _ _ pre post h E Post).
    unfold group_of_category, shown.
    rewrite (hidden_category_never_skipped fw h H h). cbn [negb].
    destruct (fill_group _ h _); [contradiction|reflexivity].
Qed.

Lemma hidden_category_parameter_has_item_witness :
  HIDDEN fw_tuple = HiddenCategory HIDDEN_CATEGORY
  /\ NoDup (map snd (sorted_categories fw_tuple))
  /\ In HIDDEN_CATEGORY (sorted_categories fw_tuple)
  /\ In ("secret", (PBool true, "Internal switch", HIDDEN_CATEGORY))
        (working_table fw_tuple None (store_of with_secret))
  /\ is_hidden (HIDDEN fw_tuple) HIDDEN_CATEGORY = true
  /\ exists grp,
       Dict.get (snd HIDDEN_CATEGORY) (grouped_params_of fw_tuple None (store_of with_secret))
       = Some grp
       /\ In (display_name (extra_params_for fw_tuple None) "secret") (Dict.keys grp).
Proof.
  assert (H : HIDDEN fw_tuple = HiddenCategory HIDDEN_CATEGORY) by reflexivity.
  assert (N : NoDup (map snd (sorted_categories fw_tuple))).
  { simpl. repeat constructor; simpl; intuition discriminate. }
  assert (L : In HIDDEN_CATEGORY (sorted_categories fw_tuple)) by (simpl; tauto).
  assert (I : In ("secret", (PBool true, "Internal switch", HIDDEN_CATEGORY))
                (working_table fw_tuple None (store_of with_secret)))
    by (vm_compute; tauto).
  repeat (split; [assumption|]).
  exact (hidden_category_parameter_has_item fw_tuple None (store_of with_secret)
           HIDDEN_CATEGORY "secret" "Internal switch" (PBool true) H N L I).
Defined.
